(** * FinSight-AI backend: ingestion pipeline and similarity engine

    A shallow embedding of [backend/embeddings.py], [backend/groq_integration.py],
    the tables of [backend/database.py], the [add_article] handler of
    [backend/app.py] and the bulk loader of [backend/mock_data.py], with the
    properties the specification states about them.

    Conventions of the model.
    - In the pipeline a Python [float] is read as a real number, the value
      the float approximates; [Ieee] evaluates the scorer on floats, with
      the rounding of every operation.
    - The libraries the backend calls (numpy, pickle, the sentence encoder,
      the chat-completion client, [json.loads]) are interfaces (type classes);
      sklearn's [cosine_similarity] is written out.
    - A Python [str] is a [string]; one [ascii] stands for one character.
    - A table is the list of its rows in rowid (insertion) order, the order
      in which SQLite returns them for a [SELECT] without [ORDER BY]. *)

From Stdlib Require Import Reals Lra Lia List String Ascii ZArith Bool.
From Stdlib Require Import Permutation Sorted.
From Stdlib.Strings Require Byte.
From Stdlib.Floats Require Import SpecFloat.
Import ListNotations.

Set Warnings "-register-all".

Local Open Scope string_scope.
Local Open Scope list_scope.

(* ================================================================== *)
(** * Python values carried by JSON *)
(* ================================================================== *)

(** The value [json.loads] returns.  A number keeps its lexeme; an object is
    the list of the items of the resulting [dict], in key order of first
    insertion. *)
Inductive json : Type :=
| JNull
| JBool (b : bool)
| JNum (lexeme : string)
| JStr (s : string)
| JArr (items : list json)
| JObj (members : list (string * json)).

(** The exceptions that reach the handler's [except Exception]. *)
Inductive pyexc : Type :=
| AttributeError
| TypeError
| IntegrityError
| ProgrammingError
| OverflowError.

Definition dquote : ascii := Ascii false true false false false true false false.

(** [quoted s] is [s] between two double-quote characters. *)
Definition quoted (s : string) : string :=
  String dquote (s ++ String dquote EmptyString)%string.

(** [dict[k] = v]: an existing key keeps its position, a new one goes last. *)
Fixpoint dict_set (k : string) (v : json) (d : list (string * json))
  : list (string * json) :=
  match d with
  | [] => [(k, v)]
  | (k', v') :: d' =>
      if String.eqb k k' then (k, v) :: d' else (k', v') :: dict_set k v d'
  end.

(** [d.get(k)] on a dict. *)
Fixpoint dict_get (k : string) (d : list (string * json)) : option json :=
  match d with
  | [] => None
  | (k', v) :: d' => if String.eqb k k' then Some v else dict_get k d'
  end.

(* ================================================================== *)
(** * A reference JSON reader

    An instance of the [json.loads] interface for the grammar of RFC 8259,
    used to run the parsers below on concrete completions.  String values
    are kept as written between the quotes (escapes are checked, not
    decoded). *)
(* ================================================================== *)

Module JsonReader.

Local Open Scope string_scope.

Definition is_ws (c : ascii) : bool :=
  match c with
  | " "%char => true
  | "009"%char => true
  | "010"%char => true
  | "013"%char => true
  | _ => false
  end.

Fixpoint skip_ws (s : string) : string :=
  match s with
  | String c r => if is_ws c then skip_ws r else s
  | EmptyString => s
  end.

Definition is_digit (c : ascii) : bool :=
  let n := nat_of_ascii c in (48 <=? n)%nat && (n <=? 57)%nat.

Definition is_hex (c : ascii) : bool :=
  let n := nat_of_ascii c in
  is_digit c || ((65 <=? n)%nat && (n <=? 70)%nat)
             || ((97 <=? n)%nat && (n <=? 102)%nat).

Fixpoint span_digits (s : string) : string * string :=
  match s with
  | String c r =>
      if is_digit c then let (d, r') := span_digits r in (String c d, r')
      else (EmptyString, s)
  | EmptyString => (EmptyString, s)
  end.

Definition is_empty (s : string) : bool :=
  match s with EmptyString => true | _ => false end.

(** An optional minus sign, then [0] or a run of digits. *)
Definition scan_int (s : string) : option (string * string) :=
  let (sign, r) :=
    match s with
    | String "-"%char r => ("-", r)
    | _ => (EmptyString, s)
    end in
  match r with
  | String "0"%char r' => Some (sign ++ "0", r')
  | _ =>
      let (d, r') := span_digits r in
      if is_empty d then None else Some (sign ++ d, r')
  end.

(** An optional fraction: a dot and at least one digit. *)
Definition scan_frac (s : string) : string * string :=
  match s with
  | String "."%char r =>
      let (d, r') := span_digits r in
      if is_empty d then (EmptyString, s) else (String "."%char d, r')
  | _ => (EmptyString, s)
  end.

(** An optional exponent: [e] or [E], a sign, at least one digit. *)
Definition scan_exp (s : string) : string * string :=
  match s with
  | String e r =>
      if Ascii.eqb e "e"%char || Ascii.eqb e "E"%char then
        let (sign, r1) :=
          match r with
          | String "-"%char r1 => ("-", r1)
          | String "+"%char r1 => ("+", r1)
          | _ => (EmptyString, r)
          end in
        let (d, r') := span_digits r1 in
        if is_empty d then (EmptyString, s)
        else (String e (sign ++ d), r')
      else (EmptyString, s)
  | EmptyString => (EmptyString, s)
  end.

Definition scan_number (s : string) : option (string * string) :=
  match scan_int s with
  | None => None
  | Some (i, r) =>
      let (f, r1) := scan_frac r in
      let (e, r2) := scan_exp r1 in
      Some (i ++ f ++ e, r2)
  end.

Definition hex4 (s : string) : bool :=
  match s with
  | String a (String b (String c (String d _))) =>
      is_hex a && is_hex b && is_hex c && is_hex d
  | _ => false
  end.

Definition is_escape (c : ascii) : bool :=
  Ascii.eqb c dquote ||
  match c with
  | "\"%char | "/"%char | "b"%char | "f"%char
  | "n"%char | "r"%char | "t"%char => true
  | _ => false
  end.

(** The characters after an opening quote, up to the closing one. *)
Fixpoint scan_string_body (s : string) : option (string * string) :=
  match s with
  | EmptyString => None
  | String c r =>
      if Ascii.eqb c dquote then Some (EmptyString, r)
      else if Ascii.eqb c "\"%char then
        match r with
        | String e r' =>
            if is_escape e || (Ascii.eqb e "u"%char && hex4 r') then
              match scan_string_body r' with
              | Some (body, rest) => Some (String c (String e body), rest)
              | None => None
              end
            else None
        | EmptyString => None
        end
      else if (nat_of_ascii c <? 32)%nat then None
      else
        match scan_string_body r with
        | Some (body, rest) => Some (String c body, rest)
        | None => None
        end
  end.

Fixpoint strip_prefix (p s : string) : option string :=
  match p, s with
  | EmptyString, _ => Some s
  | String a p', String b s' =>
      if Ascii.eqb a b then strip_prefix p' s' else None
  | String _ _, EmptyString => None
  end.

Definition scan_literal (s : string) : option (json * string) :=
  match strip_prefix "null" s with
  | Some r => Some (JNull, r)
  | None =>
  match strip_prefix "true" s with
  | Some r => Some (JBool true, r)
  | None =>
  match strip_prefix "false" s with
  | Some r => Some (JBool false, r)
  | None =>
  match scan_number s with
  | Some (n, r) => Some (JNum n, r)
  | None => None
  end end end end.

Fixpoint parse_value (fuel : nat) (s : string) {struct fuel}
  : option (json * string) :=
  match fuel with
  | O => None
  | S fuel' =>
      match skip_ws s with
      | EmptyString => None
      | String c r =>
          if Ascii.eqb c "{"%char then
            match skip_ws r with
            | String "}"%char r' => Some (JObj [], r')
            | r1 => parse_members fuel' r1 []
            end
          else if Ascii.eqb c "["%char then
            match skip_ws r with
            | String "]"%char r' => Some (JArr [], r')
            | r1 => parse_elements fuel' r1 []
            end
          else if Ascii.eqb c dquote then
            match scan_string_body r with
            | Some (body, r') => Some (JStr body, r')
            | None => None
            end
          else scan_literal (String c r)
      end
  end

with parse_elements (fuel : nat) (s : string) (acc : list json) {struct fuel}
  : option (json * string) :=
  match fuel with
  | O => None
  | S fuel' =>
      match parse_value fuel' s with
      | None => None
      | Some (v, r) =>
          match skip_ws r with
          | String ","%char r' => parse_elements fuel' r' (acc ++ [v])%list
          | String "]"%char r' => Some (JArr (acc ++ [v])%list, r')
          | _ => None
          end
      end
  end

with parse_members (fuel : nat) (s : string) (acc : list (string * json))
  {struct fuel} : option (json * string) :=
  match fuel with
  | O => None
  | S fuel' =>
      match skip_ws s with
      | String q r =>
          if Ascii.eqb q dquote then
            match scan_string_body r with
            | None => None
            | Some (k, r1) =>
                match skip_ws r1 with
                | String ":"%char r2 =>
                    match parse_value fuel' r2 with
                    | None => None
                    | Some (v, r3) =>
                        match skip_ws r3 with
                        | String ","%char r4 =>
                            parse_members fuel' r4 (dict_set k v acc)
                        | String "}"%char r4 =>
                            Some (JObj (dict_set k v acc), r4)
                        | _ => None
                        end
                    end
                | _ => None
                end
            end
          else None
      | EmptyString => None
      end
  end.

(** The whole text must be one value, white space around it allowed. *)
Definition loads (s : string) : option json :=
  match parse_value (2 * String.length s + 2) s with
  | Some (v, r) => if is_empty (skip_ws r) then Some v else None
  | None => None
  end.

End JsonReader.

(* ================================================================== *)
(** * Regular-expression search used by the completion parsers *)
(* ================================================================== *)

Module Re.

(** Whether the character [c] occurs in [s]. *)
Fixpoint occurs (c : ascii) (s : string) : bool :=
  match s with
  | EmptyString => false
  | String a r => Ascii.eqb a c || occurs c r
  end.

(** The longest prefix of [s] that ends with the character [c]. *)
Fixpoint upto_last (c : ascii) (s : string) : option string :=
  match s with
  | EmptyString => None
  | String a r =>
      match upto_last c r with
      | Some p => Some (String a p)
      | None => if Ascii.eqb a c then Some (String a EmptyString) else None
      end
  end.

(** [re.search(r'\{.*\}', s, re.DOTALL)], the text of the match: the search
    starts at the leftmost opening brace, and the greedy [.*] (which also
    crosses line ends) runs to the last closing brace after it. *)
Fixpoint search_braces (s : string) : option string :=
  match s with
  | EmptyString => None
  | String a r =>
      if Ascii.eqb a "{"%char then
        match upto_last "}"%char r with
        | Some p => Some (String a p)
        | None => None
        end
      else search_braces r
  end.

End Re.

(* ================================================================== *)
(** * External interfaces *)
(* ================================================================== *)

Definition bytes : Type := list Byte.byte.

(** numpy arrays of floats.  [values] lists the entries, as
    [reshape(1, -1)] lays them out in one row. *)
Class Numpy : Type := {
  ndarray : Type;
  values : ndarray -> list R;
  np_zeros : nat -> ndarray;
  values_zeros : forall n, values (np_zeros n) = repeat 0%R n
}.

(** [pickle.dumps] and [pickle.loads] on arrays; [None] is a raised
    exception. *)
Class Pickle `{Numpy} : Type := {
  pickle_dumps : ndarray -> bytes;
  pickle_loads : bytes -> option ndarray;
  pickle_loads_dumps : forall v, pickle_loads (pickle_dumps v) = Some v
}.

(** [model.encode(text, convert_to_numpy=True)]; [None] is a raised
    exception. *)
Class Encoder `{Numpy} : Type := {
  model_encode : string -> option ndarray
}.

(** [json.loads]; [None] is [json.JSONDecodeError]. *)
Class JsonLib : Type := {
  json_loads : string -> option json
}.

(** The hosted language model.  Each field is
    [client.chat.completions.create(...).choices[0].message.content] for the
    prompt one function builds from its arguments; [None] is a raised
    exception, or a reply without text (on which [json.loads] raises a
    [TypeError], caught by the same [except Exception]). *)
Class Groq : Type := {
  complete_entities : string -> option string;
  complete_stock_impact : string -> json -> option string;
  complete_sentiment : string -> option string
}.

(* ================================================================== *)
(** * groq_integration.py *)
(* ================================================================== *)

Section GroqIntegration.

Context `{JsonLib} `{Groq}.

Definition empty_entities : json :=
  JObj [("companies", JArr []); ("sectors", JArr []); ("regulators", JArr []);
        ("people", JArr []); ("events", JArr [])].

Definition no_stocks : json := JObj [("stocks", JArr [])].

Definition neutral_sentiment : json :=
  JObj [("sentiment", JStr "neutral"); ("sentiment_score", JNum "0.0");
        ("price_impact", JStr "neutral"); ("impact_magnitude", JStr "low")].

(** The body of [extract_entities] from [response_text] on.  The inner
    [try] handles [JSONDecodeError] only; a failure of the second
    [json.loads] reaches the outer [except Exception]. *)
Definition parse_entities (response_text : string) : json :=
  match json_loads response_text with
  | Some entities => entities
  | None =>
      match Re.search_braces response_text with
      | Some json_match =>
          match json_loads json_match with
          | Some entities => entities
          | None => empty_entities
          end
      | None => empty_entities
      end
  end.

Definition extract_entities (text : string) : json :=
  match complete_entities text with
  | Some response_text => parse_entities response_text
  | None => empty_entities
  end.

Definition parse_stock_impact (response_text : string) : json :=
  match json_loads response_text with
  | Some result => result
  | None =>
      match Re.search_braces response_text with
      | Some json_match =>
          match json_loads json_match with
          | Some result => result
          | None => no_stocks
          end
      | None => no_stocks
      end
  end.

Definition map_stock_impact (text : string) (entity : json) : json :=
  match complete_stock_impact text entity with
  | Some response_text => parse_stock_impact response_text
  | None => no_stocks
  end.

Definition parse_sentiment (response_text : string) : json :=
  match json_loads response_text with
  | Some result => result
  | None =>
      match Re.search_braces response_text with
      | Some json_match =>
          match json_loads json_match with
          | Some result => result
          | None => neutral_sentiment
          end
      | None => neutral_sentiment
      end
  end.

Definition analyze_sentiment (text : string) : json :=
  match complete_sentiment text with
  | Some response_text => parse_sentiment response_text
  | None => neutral_sentiment
  end.

End GroqIntegration.

(* ================================================================== *)
(** * sklearn.metrics.pairwise.cosine_similarity on two rows *)
(* ================================================================== *)

Module Sklearn.

Local Open Scope R_scope.

Fixpoint dot (x y : list R) : R :=
  match x, y with
  | a :: x', b :: y' => a * b + dot x' y'
  | _, _ => 0
  end.

Definition row_norm (x : list R) : R := sqrt (dot x x).

(** The norm a row is divided by: a norm of zero is replaced by one. *)
Definition scale (x : list R) : R :=
  if Req_dec_T (row_norm x) 0 then 1 else row_norm x.

Definition normalize (x : list R) : list R :=
  map (fun v => v / scale x) x.

(** [None] is the [ValueError] of the input checks: rows of different
    width, or of width zero. *)
Definition cosine_similarity (x y : list R) : option R :=
  if (Nat.eqb (List.length x) (List.length y)
      && negb (Nat.eqb (List.length x) 0))%bool
  then Some (dot (normalize x) (normalize y))
  else None.

End Sklearn.

(* ================================================================== *)
(** * embeddings.py *)
(* ================================================================== *)

(** Python's [x >= y] on floats. *)
Definition Rgeb (x y : R) : bool := if Rle_dec y x then true else false.

(** [l[:k]] for an integer [k]; a negative [k] counts from the end. *)
Definition slice_to {A : Type} (k : Z) (l : list A) : list A :=
  if (0 <=? k)%Z then firstn (Z.to_nat k) l
  else firstn (List.length l - Z.to_nat (- k)) l.

Section StableSort.

Context {A : Type} (key : A -> R).

(** [x] goes before the first element whose key it reaches, so that it
    stays ahead of the later elements with an equal key. *)
Fixpoint insert_desc (x : A) (l : list A) : list A :=
  match l with
  | [] => [x]
  | y :: l' => if Rgeb (key x) (key y) then x :: y :: l'
               else y :: insert_desc x l'
  end.

(** [l.sort(key=key, reverse=True)]: descending and stable. *)
Definition sort_desc (l : list A) : list A := fold_right insert_desc [] l.

End StableSort.

(** An article dictionary as [semantic_search_articles] reads it. *)
Record search_item : Type := {
  item_id : Z;
  item_title : string;
  item_content : string;
  item_embedding : option bytes
}.

Section Embeddings.

Context `{Pickle} `{!Encoder}.

Definition get_embedding (text : string) : ndarray :=
  match model_encode text with
  | Some embedding => embedding
  | None => np_zeros 384
  end.

Definition serialize_embedding (embedding : ndarray) : bytes :=
  pickle_dumps embedding.

(** [data] is [None] for a NULL column: [pickle.loads(None)] raises. *)
Definition deserialize_embedding (data : option bytes) : ndarray :=
  match data with
  | Some b =>
      match pickle_loads b with
      | Some embedding => embedding
      | None => np_zeros 384
      end
  | None => np_zeros 384
  end.

(** The score in exact arithmetic, the value the returned float
    approximates; [Ieee.calculate_similarity] below is the float itself. *)
Definition calculate_similarity (embedding1 embedding2 : ndarray) : R :=
  match Sklearn.cosine_similarity (values embedding1) (values embedding2) with
  | Some similarity => similarity
  | None => 0%R
  end.

Definition default_threshold : R := (85 / 100)%R.

(** [threshold] is [None] when the caller leaves the argument out. *)
Definition detect_duplicate_articles
  (article1_embedding article2_embedding : ndarray) (threshold : option R)
  : bool * R :=
  let threshold :=
    match threshold with Some t => t | None => default_threshold end in
  let similarity :=
    calculate_similarity article1_embedding article2_embedding in
  let is_duplicate := Rgeb similarity threshold in
  (is_duplicate, similarity).

(** [article.get('embedding')] is true for bytes that are not empty. *)
Definition has_embedding (article : search_item) : bool :=
  match item_embedding article with
  | Some (_ :: _) => true
  | _ => false
  end.

(** The loop of [semantic_search_articles]: one scored entry per article
    that carries an embedding. *)
Fixpoint score_articles (query_embedding : ndarray)
  (articles : list search_item) : list (search_item * R) :=
  match articles with
  | [] => []
  | article :: rest =>
      if has_embedding article then
        let article_embedding :=
          deserialize_embedding (item_embedding article) in
        let similarity :=
          calculate_similarity query_embedding article_embedding in
        (article, similarity) :: score_articles query_embedding rest
      else score_articles query_embedding rest
  end.

Definition semantic_search_articles (query : string)
  (articles : list search_item) (top_k : Z) : list (search_item * R) :=
  let query_embedding := get_embedding query in
  let results := score_articles query_embedding articles in
  slice_to top_k (sort_desc snd results).

End Embeddings.

(* ------------------------------------------------------------------ *)
(** ** The scorer on floating-point arrays

    [calculate_similarity] as it runs on two one-dimensional arrays of one
    floating-point dtype, every operation rounded to that dtype (to
    nearest, ties to even) as numpy rounds it: the row norms, the division
    by them, and the sum of products of the matrix product, accumulated
    from the first entry on.  Nothing clips the result. *)
(* ------------------------------------------------------------------ *)

Module Ieee.

Local Open Scope Z_scope.

(** A binary format: the precision in bits and the exponent bound. *)
Record dtype : Type := { prec : Z; emax : Z }.

(** The dtype of the sentence encoder's output. *)
Definition float32 : dtype := {| prec := 24; emax := 128 |}.

(** The dtype of [np.zeros(384)] and of a Python [float]. *)
Definition float64 : dtype := {| prec := 53; emax := 1024 |}.

Section Scorer.

Variable t : dtype.

Definition ndarray : Type := list spec_float.

(** The float nearest to the integer [n]. *)
Definition of_Z (n : Z) : spec_float :=
  binary_normalize (prec t) (emax t) n 0 false.

Definition add : spec_float -> spec_float -> spec_float :=
  SFadd (prec t) (emax t).
Definition mul : spec_float -> spec_float -> spec_float :=
  SFmul (prec t) (emax t).
Definition div : spec_float -> spec_float -> spec_float :=
  SFdiv (prec t) (emax t).
Definition sqrt : spec_float -> spec_float := SFsqrt (prec t) (emax t).

Definition dot (x y : ndarray) : spec_float :=
  fold_left (fun acc p => add acc (mul (fst p) (snd p))) (combine x y)
    (of_Z 0).

Definition row_norm (x : ndarray) : spec_float := sqrt (dot x x).

(** The norm a row is divided by: a norm of zero is replaced by one. *)
Definition scale (x : ndarray) : spec_float :=
  if SFeqb (row_norm x) (of_Z 0) then of_Z 1 else row_norm x.

Definition normalize (x : ndarray) : ndarray :=
  map (fun v => div v (scale x)) x.

Definition is_finite (v : spec_float) : bool :=
  match v with
  | S754_zero _ | S754_finite _ _ _ => true
  | S754_infinity _ | S754_nan => false
  end.

(** [None] is the [ValueError] of the input checks: rows of different
    width or of width zero, a NaN or an infinity. *)
Definition cosine_similarity (x y : ndarray) : option spec_float :=
  if (Nat.eqb (List.length x) (List.length y)
      && negb (Nat.eqb (List.length x) 0)
      && forallb is_finite x && forallb is_finite y)%bool
  then Some (dot (normalize x) (normalize y))
  else None.

Definition calculate_similarity (embedding1 embedding2 : ndarray)
  : spec_float :=
  match cosine_similarity embedding1 embedding2 with
  | Some similarity => similarity
  | None => of_Z 0
  end.

End Scorer.

End Ieee.

(* ================================================================== *)
(** * database.py: the tables *)
(* ================================================================== *)

(** A row of [articles]; the two timestamp columns are left out. *)
Record article_row : Type := {
  a_id : Z;
  a_title : string;
  a_content : string;
  a_source : option string;
  a_url : option string;
  a_published_date : option string;
  a_embedding : option bytes;
  a_is_duplicate : bool;
  a_canonical_id : option Z
}.

(** Rows of [entities] and [stock_impacts].  A column bound from a value
    of a language-model reply holds that value. *)
Record entity_row : Type := {
  e_article_id : Z;
  e_entity_text : json;
  e_entity_type : string;
  e_confidence : json
}.

Record stock_impact_row : Type := {
  s_article_id : Z;
  s_stock_symbol : json;
  s_impact_type : json;
  s_confidence : json;
  s_sentiment : json
}.

Record dedup_row : Type := {
  d_article_id_1 : Z;
  d_article_id_2 : Z;
  d_similarity_score : R;
  d_is_duplicate : bool
}.

(** The committed content of the database file.  [articles_seq] is the
    [sqlite_sequence] entry that AUTOINCREMENT keeps for [articles]. *)
Record database : Type := {
  articles : list article_row;
  articles_seq : Z;
  entities : list entity_row;
  stock_impacts : list stock_impact_row;
  deduplication_records : list dedup_row
}.

Definition empty_database : database :=
  {| articles := []; articles_seq := 0; entities := [];
     stock_impacts := []; deduplication_records := [] |}.

(* ------------------------------------------------------------------ *)
(** ** Statements run on one connection

    A computation threads the state of the open transaction and may raise.
    The state reached when it raises is kept: a caller that goes on and
    commits keeps the writes made so far, a caller that drops the
    connection loses them. *)
(* ------------------------------------------------------------------ *)

Definition M (A : Type) : Type := database -> database * (pyexc + A).

Definition ret {A : Type} (a : A) : M A := fun db => (db, inr a).

Definition raise {A : Type} (e : pyexc) : M A := fun db => (db, inl e).

Definition bind {A B : Type} (m : M A) (f : A -> M B) : M B :=
  fun db =>
    match m db with
    | (db1, inr a) => f a db1
    | (db1, inl e) => (db1, inl e)
    end.

Notation "x <- m ;; k" := (bind m (fun x => k))
  (at level 61, m at next level, right associativity).
Notation "m ;;; k" := (bind m (fun _ => k))
  (at level 61, right associativity).

(** A Python [for] loop whose body may raise. *)
Fixpoint for_each {A : Type} (l : list A) (body : A -> M unit) : M unit :=
  match l with
  | [] => ret tt
  | a :: l' => body a ;;; for_each l' body
  end.

(** [v.items()]. *)
Definition py_items (v : json) : M (list (string * json)) :=
  match v with
  | JObj members => ret members
  | _ => raise AttributeError
  end.

(** [v.get(k, default)]. *)
Definition py_get (v : json) (k : string) (default : json) : M json :=
  match v with
  | JObj members =>
      ret (match dict_get k members with Some x => x | None => default end)
  | _ => raise AttributeError
  end.

(** The values [for x in v] runs through: the elements of a list, the
    characters of a string, the keys of a dict. *)
Definition py_iter (v : json) : M (list json) :=
  match v with
  | JArr items => ret items
  | JStr s =>
      ret (map (fun c => JStr (String c EmptyString)) (list_ascii_of_string s))
  | JObj members => ret (map (fun kv => JStr (fst kv)) members)
  | _ => raise TypeError
  end.

(** The value of a run of decimal digits, read from the left. *)
Fixpoint digits_value (s : string) (acc : Z) : option Z :=
  match s with
  | EmptyString => Some acc
  | String c rest =>
      let n := nat_of_ascii c in
      if (48 <=? n)%nat && (n <=? 57)%nat
      then digits_value rest (10 * acc + Z.of_nat (n - 48))%Z
      else None
  end.

(** The Python [int] a number lexeme stands for.  A lexeme with a fraction
    or an exponent, and [NaN], [Infinity] and [-Infinity], which
    [json.loads] accepts, are floats: [None]. *)
Definition lexeme_int (lexeme : string) : option Z :=
  match lexeme with
  | EmptyString => None
  | String "-" EmptyString => None
  | String "-" digits => option_map Z.opp (digits_value digits 0%Z)
  | _ => digits_value lexeme 0%Z
  end.

(** The range of SQLite's 64-bit INTEGER. *)
Definition fits_int64 (z : Z) : bool :=
  ((- 2 ^ 63 <=? z) && (z <? 2 ^ 63))%Z.

(** sqlite3 binds [None], booleans, floats, strings and the integers of 64
    bits; a wider integer, a list or a dict is refused when the parameters
    are bound. *)
Definition bindable (v : json) : bool :=
  match v with
  | JArr _ | JObj _ => false
  | JNum lexeme =>
      match lexeme_int lexeme with
      | Some z => fits_int64 z
      | None => true
      end
  | _ => true
  end.

(** What the refusal raises: [OverflowError] for an integer, otherwise
    [ProgrammingError]. *)
Definition bind_failure (v : json) : pyexc :=
  match v with
  | JNum _ => OverflowError
  | _ => ProgrammingError
  end.

(** The parameters are bound from left to right: the first one refused. *)
Definition first_unbindable (params : list json) : option json :=
  find (fun v => negb (bindable v)) params.

(** The values stored as NULL: [None], and a float NaN, which SQLite turns
    into NULL when it is bound. *)
Definition is_null (v : json) : bool :=
  match v with
  | JNull => true
  | JNum lexeme => String.eqb lexeme "NaN"
  | _ => false
  end.

Definition max_rowid (rows : list article_row) : Z :=
  fold_right Z.max 0%Z (map a_id rows).

(** [url TEXT UNIQUE]: NULL never collides. *)
Definition url_taken (u : option string) (rows : list article_row) : bool :=
  match u with
  | None => false
  | Some u =>
      existsb (fun r => match a_url r with
                        | Some u' => String.eqb u u'
                        | None => false
                        end) rows
  end.

(** [SELECT id, content, embedding FROM articles WHERE is_duplicate = 0]. *)
Definition select_unique_articles : M (list article_row) :=
  fun db => (db, inr (filter (fun r => negb (a_is_duplicate r)) (articles db))).

(** The rowid AUTOINCREMENT gives the next row of [articles]. *)
Definition next_rowid (db : database) : Z :=
  (Z.max (articles_seq db) (max_rowid (articles db)) + 1)%Z.

Definition add_row (db : database) (row : article_row) : database :=
  {| articles := articles db ++ [row];
     articles_seq := a_id row;
     entities := entities db;
     stock_impacts := stock_impacts db;
     deduplication_records := deduplication_records db |}.

(** [INSERT INTO articles (...)], then [cursor.lastrowid]. *)
Definition insert_article (title content : string)
  (source url published_date : option string) (embedding : bytes)
  (is_duplicate : bool) (canonical_id : option Z) : M Z :=
  fun db =>
    if url_taken url (articles db) then (db, inl IntegrityError)
    else
      let row := {| a_id := next_rowid db; a_title := title;
                    a_content := content; a_source := source; a_url := url;
                    a_published_date := published_date;
                    a_embedding := Some embedding;
                    a_is_duplicate := is_duplicate;
                    a_canonical_id := canonical_id |} in
      (add_row db row, inr (a_id row)).

(** The part of the database that entity and stock-impact rows leave
    alone. *)
Definition core (db : database)
  : list article_row * Z * list dedup_row :=
  (articles db, articles_seq db, deduplication_records db).

(** [INSERT INTO entities (...)]: [entity_text] is NOT NULL. *)
Definition insert_entity (article_id : Z) (entity_text : json)
  (entity_type : string) (confidence : json) : M unit :=
  fun db =>
    if negb (bindable entity_text) then (db, inl (bind_failure entity_text))
    else if is_null entity_text then (db, inl IntegrityError)
    else
      let row := {| e_article_id := article_id; e_entity_text := entity_text;
                    e_entity_type := entity_type;
                    e_confidence := confidence |} in
      ({| articles := articles db;
          articles_seq := articles_seq db;
          entities := entities db ++ [row];
          stock_impacts := stock_impacts db;
          deduplication_records := deduplication_records db |}, inr tt).

(** [INSERT INTO stock_impacts (...)]: [stock_symbol] is NOT NULL. *)
Definition insert_stock_impact (article_id : Z)
  (stock_symbol impact_type confidence sentiment : json) : M unit :=
  fun db =>
    match first_unbindable [stock_symbol; impact_type; confidence] with
    | Some v => (db, inl (bind_failure v))
    | None =>
      if is_null stock_symbol then (db, inl IntegrityError)
      else
      let row := {| s_article_id := article_id;
                    s_stock_symbol := stock_symbol;
                    s_impact_type := impact_type;
                    s_confidence := confidence;
                    s_sentiment := sentiment |} in
      ({| articles := articles db;
          articles_seq := articles_seq db;
          entities := entities db;
          stock_impacts := stock_impacts db ++ [row];
          deduplication_records := deduplication_records db |}, inr tt)
    end.

(** [INSERT INTO deduplication_records (...)]. *)
Definition insert_deduplication_record (article_id_1 article_id_2 : Z)
  (similarity_score : R) (is_duplicate : bool) : M unit :=
  fun db =>
    let row := {| d_article_id_1 := article_id_1;
                  d_article_id_2 := article_id_2;
                  d_similarity_score := similarity_score;
                  d_is_duplicate := is_duplicate |} in
    ({| articles := articles db;
        articles_seq := articles_seq db;
        entities := entities db;
        stock_impacts := stock_impacts db;
        deduplication_records := deduplication_records db ++ [row] |}, inr tt).

(* ================================================================== *)
(** * app.py: the ingestion handler *)
(* ================================================================== *)

(** The request model [Article]. *)
Record Article : Type := {
  title : string;
  content : string;
  source : option string;
  url : option string;
  published_date : option string
}.

(** The dictionary [add_article] returns. *)
Record response : Type := {
  resp_id : Z;
  resp_title : string;
  resp_is_duplicate : bool;
  resp_canonical_id : option Z;
  resp_entities : json;
  resp_sentiment : json;
  resp_message : string
}.

Inductive outcome : Type :=
| Returned (body : response)
| HTTPException (status_code : Z) (detail : pyexc).

Section App.

Context `{Pickle} `{!Encoder} `{JsonLib} `{Groq}.

(** The scan over [existing_articles], with its [break]. *)
Fixpoint scan_existing (embedding : ndarray)
  (existing_articles : list article_row) : bool * option Z :=
  match existing_articles with
  | [] => (false, None)
  | existing :: rest =>
      let existing_embedding := deserialize_embedding (a_embedding existing) in
      let '(is_dup, similarity) :=
        detect_duplicate_articles embedding existing_embedding
          (Some (85 / 100)%R) in
      if is_dup then (true, Some (a_id existing))
      else scan_existing embedding rest
  end.

(** The first loop over [entities_data.items()]. *)
Definition store_entities (article_id : Z) (entities_data : json) : M unit :=
  items <- py_items entities_data ;;
  for_each items (fun '(entity_type, entities_list) =>
    texts <- py_iter entities_list ;;
    for_each texts (fun entity_text =>
      insert_entity article_id entity_text entity_type (JNum "1.0"))).

Definition is_company_or_sector (entity_type : string) : bool :=
  String.eqb entity_type "companies" || String.eqb entity_type "sectors".

(** The second loop over [entities_data.items()]. *)
Definition store_stock_impacts (article_id : Z) (text : string)
  (entities_data : json) : M unit :=
  items <- py_items entities_data ;;
  for_each items (fun '(entity_type, entities_list) =>
    if is_company_or_sector entity_type then
      texts <- py_iter entities_list ;;
      for_each texts (fun entity_text =>
        let impact_data := map_stock_impact text entity_text in
        stocks <- py_get impact_data "stocks" (JArr []) ;;
        stock_list <- py_iter stocks ;;
        for_each stock_list (fun stock =>
          symbol <- py_get stock "symbol" JNull ;;
          impact_type <- py_get stock "impact_type" JNull ;;
          confidence <- py_get stock "confidence" (JNum "0.5") ;;
          insert_stock_impact article_id symbol impact_type confidence JNull))
    else ret tt).

(** Entity extraction and stock-impact mapping for the row [article_id]. *)
Definition enrich (text : string) (article_id : Z) : M json :=
  let entities_data := extract_entities text in
  store_entities article_id entities_data ;;;
  store_stock_impacts article_id text entities_data ;;;
  ret entities_data.

(** The handler from the [INSERT] of the article to the [return]. *)
Definition add_article_store (article : Article) (embedding_bytes : bytes)
  (is_duplicate : bool) (canonical_id : option Z) : M response :=
  article_id <- insert_article (title article) (content article)
                  (source article) (url article) (published_date article)
                  embedding_bytes is_duplicate canonical_id ;;
  entities_data <- enrich (content article) article_id ;;
  let sentiment_data := analyze_sentiment (content article) in
  ret {| resp_id := article_id;
         resp_title := title article;
         resp_is_duplicate := is_duplicate;
         resp_canonical_id := canonical_id;
         resp_entities := entities_data;
         resp_sentiment := sentiment_data;
         resp_message := "Article added successfully" |}.

(** The statements inside the handler's [try]. *)
Definition add_article_try (article : Article) : M response :=
  let embedding := get_embedding (content article) in
  let embedding_bytes := serialize_embedding embedding in
  existing_articles <- select_unique_articles ;;
  let '(is_duplicate, canonical_id) :=
    scan_existing embedding existing_articles in
  add_article_store article embedding_bytes is_duplicate canonical_id.

(** [POST /articles] on the committed database [db].  [conn.commit()] is
    the last statement before the [return]; when the body raises, the
    connection is dropped uncommitted and the file keeps [db]. *)
Definition add_article (article : Article) (db : database)
  : database * outcome :=
  match add_article_try article db with
  | (db', inr body) => (db', Returned body)
  | (_, inl e) => (db, HTTPException 500 e)
  end.

(** The rows [POST /search] hands to [semantic_search_articles]. *)
Definition search_items (db : database) : list search_item :=
  map (fun r => {| item_id := a_id r; item_title := a_title r;
                   item_content := a_content r;
                   item_embedding := a_embedding r |})
      (filter (fun r => negb (a_is_duplicate r)) (articles db)).

(* ------------------------------------------------------------------ *)
(** ** mock_data.py: the bulk loader *)
(* ------------------------------------------------------------------ *)

(** The scan over [processed_articles], with its [break]. *)
Fixpoint scan_processed (embedding : ndarray)
  (processed_articles : list (Z * ndarray)) : bool * option Z * R :=
  match processed_articles with
  | [] => (false, None, 0%R)
  | (pid, p_emb) :: rest =>
      let '(is_dup, score) :=
        detect_duplicate_articles embedding p_emb (Some (85 / 100)%R) in
      if is_dup then (true, Some pid, score)
      else scan_processed embedding rest
  end.

(** Steps 1 to 4 of the loop body: the article row, then either the
    audit record of the duplicate or the entry in [processed_articles]. *)
Definition load_article_insert (article : Article)
  (processed_articles : list (Z * ndarray))
  : M (bool * Z * list (Z * ndarray)) :=
  let embedding := get_embedding (content article) in
  let embedding_bytes := serialize_embedding embedding in
  let '(is_duplicate, canonical_id, similarity_score) :=
    scan_processed embedding processed_articles in
  article_id <- insert_article (title article) (content article)
                  (source article) (url article) (published_date article)
                  embedding_bytes is_duplicate canonical_id ;;
  if is_duplicate then
    match canonical_id with
    | Some cid =>
        insert_deduplication_record cid article_id similarity_score true
    | None => raise IntegrityError
    end ;;;
    ret (is_duplicate, article_id, processed_articles)
  else
    ret (is_duplicate, article_id,
         processed_articles ++ [(article_id, embedding)]).

(** One turn of the loop: steps 1 to 4, then step 5 ([enrich]) for an
    article that is not a duplicate.  The [except] of the body prints the
    error and the loop goes on, on the same connection. *)
Definition load_article (article : Article)
  (st : database * list (Z * ndarray)) : database * list (Z * ndarray) :=
  let (db, processed_articles) := st in
  match load_article_insert article processed_articles db with
  | (db1, inl _) => (db1, processed_articles)
  | (db1, inr (is_duplicate, article_id, processed_articles')) =>
      if is_duplicate then (db1, processed_articles')
      else (fst (enrich (content article) article_id db1),
            processed_articles')
  end.

(** [load_mock_data()], for the list [MOCK_ARTICLES]; one [commit] ends
    it. *)
Definition load_mock_data (MOCK_ARTICLES : list Article) (db : database)
  : database :=
  fst (fold_left (fun st article => load_article article st)
                 MOCK_ARTICLES (db, [])).

End App.

(* ================================================================== *)
(** * embeddings.py: the threshold search *)
(* ================================================================== *)

Section SimilarArticles.

Context `{Numpy}.

(** The loop of [find_similar_articles]. *)
Fixpoint collect_similar (query_embedding : ndarray)
  (article_embeddings : list (Z * ndarray)) (threshold : R) : list (Z * R) :=
  match article_embeddings with
  | [] => []
  | (article_id, embedding) :: rest =>
      let similarity := calculate_similarity query_embedding embedding in
      if Rgeb similarity threshold
      then (article_id, similarity)
             :: collect_similar query_embedding rest threshold
      else collect_similar query_embedding rest threshold
  end.

(** [threshold] is [None] when the caller leaves the argument out. *)
Definition find_similar_articles (query_embedding : ndarray)
  (article_embeddings : list (Z * ndarray)) (threshold : option R)
  : list (Z * R) :=
  let threshold :=
    match threshold with Some t => t | None => (7 / 10)%R end in
  sort_desc snd (collect_similar query_embedding article_embeddings threshold).

End SimilarArticles.

(* ================================================================== *)
(** * groq_integration.py: the question-answering prompt *)
(* ================================================================== *)

(** The chat completion for a prompt given as text: [None] is a raised
    exception, [Some c] the [content] of the first choice, which the
    client types as an optional string. *)
Class GroqChat : Type := {
  complete_prompt : string -> option (option string)
}.

(** A context article: [None] is a key the dictionary does not have. *)
Record context_article : Type := {
  ctx_id : Z;
  ctx_title : option string;
  ctx_content : option string
}.

Definition newline : string := String "010"%char EmptyString.

(** [s[:n]]. *)
Fixpoint str_take (n : nat) (s : string) : string :=
  match n, s with
  | S n', String c s' => String c (str_take n' s')
  | _, _ => EmptyString
  end.

(** [sep.join(parts)]. *)
Fixpoint str_join (sep : string) (parts : list string) : string :=
  match parts with
  | [] => EmptyString
  | [p] => p
  | p :: rest => (p ++ sep ++ str_join sep rest)%string
  end.

Definition or_empty (v : option string) : string :=
  match v with Some s => s | None => EmptyString end.

Section QueryWithContext.

Context `{GroqChat}.

Local Open Scope string_scope.

Definition article_block (article : context_article) : string :=
  "Article: " ++ or_empty (ctx_title article) ++ newline
  ++ str_take 300 (or_empty (ctx_content article)).

Definition articles_text (context_articles : list context_article) : string :=
  str_join (newline ++ newline) (map article_block (firstn 5 context_articles)).

Definition query_prompt (query : string)
  (context_articles : list context_article) : string :=
  newline
  ++ "    A user is asking about financial news. Answer their query based on the provided articles."
  ++ newline ++ "    " ++ newline
  ++ "    User Query: " ++ query ++ newline
  ++ "    " ++ newline
  ++ "    Relevant Articles:" ++ newline
  ++ "    " ++ articles_text context_articles ++ newline
  ++ "    " ++ newline
  ++ "    Provide a concise, informative answer based on the articles. If the query is about a company, include sector-wide implications. If about a sector, summarize impacts across companies."
  ++ newline ++ "    ".

(** The result is the reply's [content] ([None] when the reply has
    none), or the fixed message when the call raises. *)
Definition query_with_context (query : string)
  (context_articles : list context_article) : option string :=
  match complete_prompt (query_prompt query context_articles) with
  | Some reply => reply
  | None => Some "Unable to process query at this time."
  end.

End QueryWithContext.

(* ================================================================== *)
(** * app.py: search and deduplication statistics *)
(* ================================================================== *)

(** Python's [round(x, ndigits)] on floats; rounding zero gives zero. *)
Class PyFloat : Type := {
  py_round : R -> Z -> R;
  py_round_zero : forall ndigits, py_round 0%R ndigits = 0%R
}.

Record search_result : Type := {
  sr_id : Z;
  sr_title : string;
  sr_similarity_score : R
}.

Record search_response : Type := {
  search_query : string;
  search_results_count : Z;
  search_results : list search_result
}.

Record dedup_stats : Type := {
  total_articles : Z;
  unique_articles : Z;
  duplicate_articles : Z;
  deduplication_rate : R;
  average_similarity_score : R
}.

(** [SELECT COUNT( * ) ... WHERE ...]. *)
Definition sql_count {A : Type} (p : A -> bool) (rows : list A) : Z :=
  Z.of_nat (List.length (filter p rows)).

(** [SELECT AVG(x) ...]: NULL on no row. *)
Definition sql_avg (xs : list R) : option R :=
  match xs with
  | [] => None
  | _ => Some (fold_right Rplus 0%R xs / INR (List.length xs))%R
  end.

Section Handlers.

Context `{Pickle} `{!Encoder} `{JsonLib} `{Groq} `{PyFloat}.

(** [POST /search], for a query and a [top_k] that passed the checks of
    the route (a query of at least one character, [1 <= top_k <= 100]). *)
Definition semantic_search (query : string) (top_k : Z) (db : database)
  : search_response :=
  let articles := search_items db in
  let results := semantic_search_articles query articles top_k in
  {| search_query := query;
     search_results_count := Z.of_nat (List.length results);
     search_results :=
       map (fun r => {| sr_id := item_id (fst r);
                        sr_title := item_title (fst r);
                        sr_similarity_score := py_round (snd r) 3 |})
           results |}.

(** [GET /deduplication/stats].  [x or 0] keeps a number as it is. *)
Definition deduplication_stats (db : database) : dedup_stats :=
  let total := sql_count (fun _ => true) (articles db) in
  let duplicate_count := sql_count a_is_duplicate (articles db) in
  let unique_count :=
    sql_count (fun r => negb (a_is_duplicate r)) (articles db) in
  let avg_similarity :=
    match sql_avg (map d_similarity_score
                     (filter d_is_duplicate (deduplication_records db))) with
    | Some a => a
    | None => 0%R
    end in
  {| total_articles := total;
     unique_articles := unique_count;
     duplicate_articles := duplicate_count;
     deduplication_rate :=
       py_round (if (0 <? total)%Z
                 then (IZR duplicate_count / IZR total * 100)%R
                 else 0%R) 2;
     average_similarity_score := py_round avg_similarity 3 |}.

(** A run of [POST /articles] calls, one after the other. *)
Definition post_all (posted : list Article) (db : database) : database :=
  fold_left (fun d article => fst (add_article article d)) posted db.

End Handlers.

(* ================================================================== *)
(** * Conditions on the [articles] table *)
(* ================================================================== *)

(** The urls of the rows that have one. *)
Definition stored_urls (rows : list article_row) : list string :=
  flat_map (fun r => match a_url r with Some u => [u] | None => [] end) rows.

(** Every duplicate points to a stored article that is not a duplicate
    and has a smaller id; every other article points nowhere. *)
Definition canonical_ok (rows : list article_row) : Prop :=
  forall r, In r rows ->
    if a_is_duplicate r
    then exists c r0, a_canonical_id r = Some c /\ In r0 rows /\
                      a_id r0 = c /\ a_is_duplicate r0 = false /\
                      (c < a_id r)%Z
    else a_canonical_id r = None.

(* ================================================================== *)
(** * A small concrete world

    Instances of the interfaces on which the handlers can be run: arrays
    of small non-negative integers, a one-byte pickle header, an encoder
    that knows three texts and raises on any other, and a language model
    with fixed replies. *)
(* ================================================================== *)

Module Demo.

Definition byte_value (b : Byte.byte) : R := IZR (Z.of_N (Byte.to_N b)).

Definition numpy : Numpy :=
  {| ndarray := list Byte.byte;
     values := map byte_value;
     np_zeros := repeat Byte.x00;
     values_zeros :=
       ltac:(intro n; induction n as [|n IH]; simpl;
             [reflexivity | rewrite IH; reflexivity]) |}.

Definition dumps (v : list Byte.byte) : bytes := Byte.x80 :: v.

Definition loads (data : bytes) : option (list Byte.byte) :=
  match data with
  | Byte.x80 :: v => Some v
  | _ => None
  end.

Definition pickle : @Pickle numpy :=
  {| pickle_dumps := dumps : @ndarray numpy -> bytes;
     pickle_loads := loads : bytes -> option (@ndarray numpy);
     pickle_loads_dumps := fun v => eq_refl |}.

Definition text_a : string := "RBI hikes repo rate by 25 basis points".
Definition text_b : string := "RBI policy: repo rate up, banks to reprice loans".
Definition text_c : string := "Banks reprice loans after the RBI rate decision".
Definition text_d : string := "RBI raises repo rate 25 bps; banks reprice loans".

Definition vec_a : list Byte.byte := [Byte.x03; Byte.x02; Byte.x01].
Definition vec_b : list Byte.byte := [Byte.x01; Byte.x03; Byte.x02].
Definition vec_c : list Byte.byte := [Byte.x02; Byte.x01; Byte.x03].
Definition vec_d : list Byte.byte := [Byte.x03; Byte.x04; Byte.x03].

Definition encode (text : string) : option (list Byte.byte) :=
  if String.eqb text text_a then Some vec_a
  else if String.eqb text text_b then Some vec_b
  else if String.eqb text text_c then Some vec_c
  else if String.eqb text text_d then Some vec_d
  else None.

Definition encoder : @Encoder numpy :=
  {| model_encode := encode : string -> option (@ndarray numpy) |}.

Definition jsonlib : JsonLib := {| json_loads := JsonReader.loads |}.

Definition entities_reply : string :=
  ("Here is the JSON: {" ++ quoted "companies" ++ ": [" ++ quoted "HDFC Bank"
   ++ "], " ++ quoted "regulators" ++ ": [" ++ quoted "RBI" ++ "]} ")%string.

Definition impact_reply : string :=
  ("{" ++ quoted "stocks" ++ ": [{" ++ quoted "symbol" ++ ": "
   ++ quoted "HDFCBANK" ++ ", " ++ quoted "impact_type" ++ ": "
   ++ quoted "direct" ++ "}]}")%string.

Definition groq : Groq :=
  {| complete_entities := fun _ => Some entities_reply;
     complete_stock_impact := fun _ _ => Some impact_reply;
     complete_sentiment := fun _ => None |}.

(** A reply with two objects. *)
Definition two_objects : string :=
  ("{" ++ quoted "companies" ++ ": [" ++ quoted "TCS" ++ "]} and {"
   ++ quoted "note" ++ ": 1}")%string.

Definition first_object : string :=
  ("{" ++ quoted "companies" ++ ": [" ++ quoted "TCS" ++ "]}")%string.

Definition article_of (text : string) (link : option string) : Article :=
  {| title := text; content := text; source := None; url := link;
     published_date := None |}.

Definition article_a : Article := article_of text_a (Some "https://example.com/a").
Definition article_b : Article := article_of text_b (Some "https://example.com/b").
Definition article_c : Article := article_of text_c (Some "https://example.com/c").
Definition article_d : Article := article_of text_d (Some "https://example.com/d").

(** An article the encoder raises on, under a new link and under the link
    of article A. *)
Definition text_x : string := "Nifty 50 reaches all-time high".
Definition article_x : Article := article_of text_x (Some "https://example.com/x").
Definition article_x_taken : Article :=
  article_of text_x (Some "https://example.com/a").

(** [POST /articles], the search and the bulk loader in this world. *)
Definition ingest (article : Article) (db : database) : database * outcome :=
  @add_article numpy pickle encoder jsonlib groq article db.

Definition search (query : string) (articles : list search_item) (top_k : Z)
  : list (search_item * R) :=
  @semantic_search_articles numpy pickle encoder query articles top_k.

Definition load (articles : list Article) (db : database) : database :=
  @load_mock_data numpy pickle encoder jsonlib groq articles db.

(** The rows the handler writes for an article in this world. *)
Definition row_of (rowid : Z) (article : Article) (vec : list Byte.byte)
  (dup : bool) (canon : option Z) : article_row :=
  {| a_id := rowid; a_title := title article; a_content := content article;
     a_source := source article; a_url := url article;
     a_published_date := published_date article;
     a_embedding := Some (dumps vec);
     a_is_duplicate := dup; a_canonical_id := canon |}.

Definition entity_rows (rowid : Z) : list entity_row :=
  [ {| e_article_id := rowid; e_entity_text := JStr "HDFC Bank";
       e_entity_type := "companies"; e_confidence := JNum "1.0" |};
    {| e_article_id := rowid; e_entity_text := JStr "RBI";
       e_entity_type := "regulators"; e_confidence := JNum "1.0" |} ].

Definition impact_rows (rowid : Z) : list stock_impact_row :=
  [ {| s_article_id := rowid; s_stock_symbol := JStr "HDFCBANK";
       s_impact_type := JStr "direct"; s_confidence := JNum "0.5";
       s_sentiment := JNull |} ].

Definition reply_of (rowid : Z) (article : Article) (dup : bool)
  (canon : option Z) : response :=
  {| resp_id := rowid; resp_title := title article;
     resp_is_duplicate := dup; resp_canonical_id := canon;
     resp_entities := JObj [("companies", JArr [JStr "HDFC Bank"]);
                            ("regulators", JArr [JStr "RBI"])];
     resp_sentiment := neutral_sentiment;
     resp_message := "Article added successfully" |}.

Definition row_a : article_row := row_of 1 article_a vec_a false None.
Definition row_b : article_row := row_of 2 article_b vec_b false None.
Definition row_c : article_row := row_of 3 article_c vec_c false None.

(** The database after article A. *)
Definition db_a : database :=
  {| articles := [row_a];
     articles_seq := 1;
     entities := entity_rows 1;
     stock_impacts := impact_rows 1;
     deduplication_records := [] |}.

(** The database after A, then D, through [POST /articles]. *)
Definition db_ad : database :=
  {| articles := [row_a; row_of 2 article_d vec_d true (Some 1%Z)];
     articles_seq := 2;
     entities := entity_rows 1 ++ entity_rows 2;
     stock_impacts := impact_rows 1 ++ impact_rows 2;
     deduplication_records := [] |}.

(** The database after A, B and C. *)
Definition db_abc : database :=
  {| articles := [row_a; row_b; row_c];
     articles_seq := 3;
     entities := entity_rows 1 ++ entity_rows 2 ++ entity_rows 3;
     stock_impacts := impact_rows 1 ++ impact_rows 2 ++ impact_rows 3;
     deduplication_records := [] |}.

(** The database after A, B, C, then D. *)
Definition db_abcd : database :=
  {| articles := articles db_abc ++ [row_of 4 article_d vec_d true (Some 1%Z)];
     articles_seq := 4;
     entities := entities db_abc ++ entity_rows 4;
     stock_impacts := stock_impacts db_abc ++ impact_rows 4;
     deduplication_records := [] |}.

(** The database after A, then the article the encoder raises on. *)
Definition db_ax : database :=
  {| articles := [row_a; row_of 2 article_x (repeat Byte.x00 384) false None];
     articles_seq := 2;
     entities := entity_rows 1 ++ entity_rows 2;
     stock_impacts := impact_rows 1 ++ impact_rows 2;
     deduplication_records := [] |}.

(** The database after A and B. *)
Definition db_ab : database :=
  {| articles := [row_a; row_b];
     articles_seq := 2;
     entities := entity_rows 1 ++ entity_rows 2;
     stock_impacts := impact_rows 1 ++ impact_rows 2;
     deduplication_records := [] |}.

(** The database after A, then D, through the bulk loader. *)
Definition db_ad_loaded : database :=
  {| articles := [row_a; row_of 2 article_d vec_d true (Some 1%Z)];
     articles_seq := 2;
     entities := entity_rows 1;
     stock_impacts := impact_rows 1;
     deduplication_records :=
       [ {| d_article_id_1 := 1; d_article_id_2 := 2;
            d_similarity_score := @calculate_similarity numpy vec_d vec_a;
            d_is_duplicate := true |} ] |}.

(** The article dictionaries [POST /search] builds from the rows A, B
    and C. *)
Definition item_of (r : article_row) : search_item :=
  {| item_id := a_id r; item_title := a_title r;
     item_content := a_content r; item_embedding := a_embedding r |}.

Definition item_a : search_item := item_of row_a.
Definition item_b : search_item := item_of row_b.
Definition item_c : search_item := item_of row_c.

(** The language model when the stock-impact call raises for TCS and
    answers for every other entity. *)
Definition groq_tcs_down : Groq :=
  {| complete_entities := fun _ => Some entities_reply;
     complete_stock_impact := fun _ entity =>
       match entity with
       | JStr "TCS" => None
       | _ => Some impact_reply
       end;
     complete_sentiment := fun _ => None |}.

(** The language model when every call raises. *)
Definition groq_down : Groq :=
  {| complete_entities := fun _ => None;
     complete_stock_impact := fun _ _ => None;
     complete_sentiment := fun _ => None |}.

(** Rounding to [ndigits] decimals over the reals, halves to the even
    neighbour. *)
Definition round_half_even (y : R) : Z :=
  let f := (up y - 1)%Z in
  let d := (y - IZR f)%R in
  if Rlt_dec d (1 / 2) then f
  else if Rlt_dec (1 / 2) d then (f + 1)%Z
  else if Z.even f then f else (f + 1)%Z.

Definition real_round (x : R) (ndigits : Z) : R :=
  (IZR (round_half_even (x * powerRZ 10 ndigits)) / powerRZ 10 ndigits)%R.

Definition pyfloat : PyFloat :=
  {| py_round := real_round;
     py_round_zero :=
       ltac:(intro n; unfold real_round, round_half_even;
             rewrite Rmult_0_l;
             replace (up 0) with 1%Z by (apply tech_up; simpl; lra);
             change (1 - 1)%Z with 0%Z;
             destruct (Rlt_dec (0 - 0) (1 / 2)) as [_|Hn];
               [unfold Rdiv; apply Rmult_0_l | exfalso; apply Hn; lra]) |}.

(** A chat model with one fixed answer. *)
Definition chat : GroqChat :=
  {| complete_prompt := fun _ => Some (Some "The RBI raised the repo rate.") |}.

Definition ctx_of (i : Z) (text : string) : context_article :=
  {| ctx_id := i; ctx_title := Some text; ctx_content := Some text |}.

(** A context article without a title and without a content. *)
Definition ctx_bare (i : Z) : context_article :=
  {| ctx_id := i; ctx_title := None; ctx_content := None |}.

(** The chat model when the call raises. *)
Definition chat_down : GroqChat := {| complete_prompt := fun _ => None |}.

Definition ctx_five : list context_article :=
  [ctx_of 1 text_a; ctx_of 2 text_b; ctx_of 3 text_c; ctx_of 4 text_d;
   ctx_of 5 text_x].



(** An encoder that works on the text of X too, and gives it the array
    of D. *)
Definition encoder_x : @Encoder numpy :=
  {| model_encode :=
       (fun text => if String.eqb text text_x then Some vec_d
                    else encode text) : string -> option (@ndarray numpy) |}.

Definition ingest_x (article : Article) (db : database)
  : database * outcome :=
  @add_article numpy pickle encoder_x jsonlib groq article db.

(** The database after A, then X, when the encoder works on X. *)
Definition db_ax_dup : database :=
  {| articles := [row_a; row_of 2 article_x vec_d true (Some 1%Z)];
     articles_seq := 2;
     entities := entity_rows 1 ++ entity_rows 2;
     stock_impacts := impact_rows 1 ++ impact_rows 2;
     deduplication_records := [] |}.

(** A stored row whose embedding column is NULL. *)
Definition row_blank : article_row :=
  {| a_id := 9; a_title := text_c; a_content := text_c; a_source := None;
     a_url := None; a_published_date := None; a_embedding := None;
     a_is_duplicate := false; a_canonical_id := None |}.

End Demo.

(* THEOREMS *)
(* ================================================================== *)
(** * Properties of the similarity scorer *)
(* ================================================================== *)

Module SklearnFacts.

Import Sklearn.
Local Open Scope R_scope.

Lemma dot_self_nonneg (x : list R) : 0 <= dot x x.
Proof.
  induction x as [|a x IH]; simpl; [lra | nra].
Qed.

Lemma dot_comm (x y : list R) : dot x y = dot y x.
Proof.
  revert y; induction x as [|a x IH]; intros [|b y]; simpl; auto.
  rewrite IH; ring.
Qed.

(** Cauchy-Schwarz, in the squared form. *)
Lemma dot_square_le (x y : list R) :
  dot x y * dot x y <= dot x x * dot y y.
Proof.
  revert y; induction x as [|u x IH]; intros [|v y]; simpl;
    rewrite ?Rmult_0_l, ?Rmult_0_r; try lra.
  specialize (IH y).
    pose proof (dot_self_nonneg x) as Ha.
    pose proof (dot_self_nonneg y) as Hb.
    set (a := dot x x) in *; set (b := dot y y) in *; set (c := dot x y) in *.
    assert (Hmix : 2 * (u * v * c) <= a * (v * v) + b * (u * u)).
    { set (T := a * (v * v) + b * (u * u)).
      set (S := 2 * (u * v * c)).
      assert (HT : 0 <= T) by (unfold T; nra).
      assert (HS : S * S <= T * T).
      { unfold S, T.
        assert (H1 : (u * v) * (u * v) * (c * c) <= (u * v) * (u * v) * (a * b))
          by (apply Rmult_le_compat_l; nra).
        pose proof (Rle_0_sqr (a * (v * v) - b * (u * u))) as H2.
        unfold Rsqr in H2; lra. }
      destruct (Rle_dec S T) as [|Hgt]; [assumption|].
      exfalso; nra. }
  nra.
Qed.

Lemma dot_scaled (p q : R) (x y : list R) :
  dot (map (fun v => v / p) x) (map (fun v => v / q) y)
  = dot x y * (/ p * / q).
Proof.
  revert y; induction x as [|a x IH]; intros [|b y]; simpl; try ring.
  rewrite IH; unfold Rdiv; ring.
Qed.

Lemma dot_zero_l (x y : list R) : Forall (eq 0) x -> dot x y = 0.
Proof.
  intros Hx; revert y; induction Hx as [|a x Ha Hx IH]; intros [|b y];
    simpl; try reflexivity.
  rewrite IH, <- Ha; ring.
Qed.

Lemma dot_zero_r (x y : list R) : Forall (eq 0) y -> dot x y = 0.
Proof. intros Hy; rewrite dot_comm; apply dot_zero_l; assumption. Qed.

Lemma normalize_zero (x : list R) :
  Forall (eq 0) x -> Forall (eq 0) (normalize x).
Proof.
  unfold normalize; generalize (scale x) as p; intros p Hx.
  induction Hx as [|a x Ha Hx IH]; simpl; constructor; auto.
  rewrite <- Ha; unfold Rdiv; ring.
Qed.

Lemma scale_square (x : list R) :
  row_norm x <> 0 -> scale x * scale x = dot x x.
Proof.
  intros Hn; unfold scale.
  destruct (Req_dec_T (row_norm x) 0) as [?|_]; [contradiction|].
  unfold row_norm; apply sqrt_sqrt, dot_self_nonneg.
Qed.

Lemma scale_pos (x : list R) : 0 < scale x.
Proof.
  unfold scale; destruct (Req_dec_T (row_norm x) 0) as [_|Hn]; [lra|].
  pose proof (sqrt_pos (dot x x)); unfold row_norm in *; lra.
Qed.

Lemma normalize_length (x : list R) : List.length (normalize x) = List.length x.
Proof. unfold normalize; apply length_map. Qed.

(** A row whose norm is zero has only zero entries. *)
Lemma dot_self_zero (x : list R) : dot x x = 0 -> Forall (eq 0) x.
Proof.
  induction x as [|a x IH]; simpl; intros Hx; constructor.
  - pose proof (dot_self_nonneg x); nra.
  - apply IH; pose proof (dot_self_nonneg x); nra.
Qed.

Lemma row_norm_zero (x : list R) : row_norm x = 0 -> Forall (eq 0) x.
Proof.
  unfold row_norm; intros Hn; apply dot_self_zero.
  apply sqrt_eq_0; [apply dot_self_nonneg | assumption].
Qed.

(** The product of two normalized rows lies between -1 and 1. *)
Lemma dot_normalize_bounds (x y : list R) :
  -1 <= dot (normalize x) (normalize y) <= 1.
Proof.
  destruct (Req_dec_T (row_norm x) 0) as [Hx|Hx].
  { rewrite dot_zero_l; [lra|]. apply normalize_zero, row_norm_zero, Hx. }
  destruct (Req_dec_T (row_norm y) 0) as [Hy|Hy].
  { rewrite dot_zero_r; [lra|]. apply normalize_zero, row_norm_zero, Hy. }
  unfold normalize; rewrite dot_scaled.
  pose proof (scale_pos x) as Hp; pose proof (scale_pos y) as Hq.
  pose proof (scale_square x Hx) as Hxx; pose proof (scale_square y Hy) as Hyy.
  pose proof (dot_square_le x y) as Hcs.
  set (p := scale x) in *; set (q := scale y) in *; set (c := dot x y) in *.
  assert (Hpq : 0 < p * q) by nra.
  assert (Hc : c * c <= (p * q) * (p * q)) by nra.
  assert (Hlo : - (p * q) <= c) by nra.
  assert (Hhi : c <= p * q) by nra.
  replace (/ p * / q) with (/ (p * q)) by (field; lra).
  split.
  - apply Rmult_le_reg_r with (p * q); [assumption|].
    rewrite Rmult_assoc, Rinv_l by lra; lra.
  - apply Rmult_le_reg_r with (p * q); [assumption|].
    rewrite Rmult_assoc, Rinv_l by lra; lra.
Qed.

Lemma dot_normalize_eq (x y : list R) :
  0 < dot x x -> 0 < dot y y ->
  exists p q, 0 < p /\ 0 < q /\ p * p = dot x x /\ q * q = dot y y /\
              dot (normalize x) (normalize y) * (p * q) = dot x y.
Proof.
  intros Hx Hy.
  assert (Hnx : row_norm x <> 0).
  { unfold row_norm; intros Hz; apply sqrt_eq_0 in Hz; lra. }
  assert (Hny : row_norm y <> 0).
  { unfold row_norm; intros Hz; apply sqrt_eq_0 in Hz; lra. }
  exists (scale x), (scale y).
  pose proof (scale_pos x); pose proof (scale_pos y).
  repeat split; try assumption; try (apply scale_square; assumption).
  unfold normalize; rewrite dot_scaled; field; split; lra.
Qed.

(** Two criteria that avoid the square roots. *)
Lemma cosine_ge (x y : list R) (t : R) :
  0 <= t -> 0 < dot x x -> 0 < dot y y -> 0 <= dot x y ->
  t * t * (dot x x * dot y y) <= dot x y * dot x y ->
  t <= dot (normalize x) (normalize y).
Proof.
  intros Ht Hx Hy Hc Hsq.
  destruct (dot_normalize_eq x y Hx Hy) as (p & q & Hp & Hq & Hpp & Hqq & Hd).
  set (s := dot (normalize x) (normalize y)) in *.
  assert (Hpq : 0 < p * q) by nra.
  destruct (Rle_dec t s) as [|Hn]; [assumption|exfalso].
  apply Rnot_le_lt in Hn.
  assert (H1 : s * (p * q) < t * (p * q)) by (apply Rmult_lt_compat_r; lra).
  assert (H2 : 0 <= s * (p * q)) by lra.
  assert (H3 : (s * (p * q)) * (s * (p * q)) < (t * (p * q)) * (t * (p * q)))
    by nra.
  rewrite Hd in H3.
  replace (t * (p * q) * (t * (p * q))) with (t * t * ((p * p) * (q * q)))
    in H3 by ring.
  rewrite Hpp, Hqq in H3; lra.
Qed.

Lemma cosine_lt (x y : list R) (t : R) :
  0 < t -> 0 < dot x x -> 0 < dot y y ->
  dot x y * dot x y < t * t * (dot x x * dot y y) ->
  dot (normalize x) (normalize y) < t.
Proof.
  intros Ht Hx Hy Hsq.
  destruct (dot_normalize_eq x y Hx Hy) as (p & q & Hp & Hq & Hpp & Hqq & Hd).
  set (s := dot (normalize x) (normalize y)) in *.
  assert (Hpq : 0 < p * q) by nra.
  destruct (Rlt_dec s t) as [|Hn]; [assumption|exfalso].
  apply Rnot_lt_le in Hn.
  assert (H1 : t * (p * q) <= s * (p * q)) by (apply Rmult_le_compat_r; lra).
  assert (H2 : 0 < t * (p * q)) by nra.
  assert (H3 : (t * (p * q)) * (t * (p * q)) <= (s * (p * q)) * (s * (p * q)))
    by nra.
  rewrite Hd in H3.
  replace (t * (p * q) * (t * (p * q))) with (t * t * ((p * p) * (q * q)))
    in H3 by ring.
  rewrite Hpp, Hqq in H3; lra.
Qed.

End SklearnFacts.

(* ================================================================== *)
(** * embeddings.py: codec, scorer, detector *)
(* ================================================================== *)

Lemma Rgeb_true (x y : R) : Rgeb x y = true <-> (x >= y)%R.
Proof.
  unfold Rgeb; destruct (Rle_dec y x) as [Hle|Hnle]; split; intros Hx;
    try reflexivity; try discriminate.
  - apply Rle_ge; assumption.
  - exfalso; apply Hnle, Rge_le; assumption.
Qed.

Lemma Rgeb_false (x y : R) : Rgeb x y = false <-> (x < y)%R.
Proof.
  unfold Rgeb; destruct (Rle_dec y x) as [Hle|Hnle]; split; intros Hx;
    try reflexivity; try discriminate.
  - exfalso; lra.
  - apply Rnot_le_lt; assumption.
Qed.

Section EmbeddingsFacts.

Context `{Pickle} `{!Encoder}.

Lemma calculate_similarity_mismatch (a b : ndarray) :
  List.length (values a) <> List.length (values b) ->
  calculate_similarity a b = 0%R.
Proof.
  intros Hlen; unfold calculate_similarity, Sklearn.cosine_similarity.
  apply Nat.eqb_neq in Hlen; rewrite Hlen; reflexivity.
Qed.

Lemma calculate_similarity_zero_l (a b : ndarray) :
  Forall (eq 0%R) (values a) -> calculate_similarity a b = 0%R.
Proof.
  intros Ha; unfold calculate_similarity, Sklearn.cosine_similarity.
  destruct (_ && _)%bool; [|reflexivity].
  apply SklearnFacts.dot_zero_l, SklearnFacts.normalize_zero, Ha.
Qed.

Lemma calculate_similarity_zero_r (a b : ndarray) :
  Forall (eq 0%R) (values b) -> calculate_similarity a b = 0%R.
Proof.
  intros Hb; unfold calculate_similarity, Sklearn.cosine_similarity.
  destruct (_ && _)%bool; [|reflexivity].
  apply SklearnFacts.dot_zero_r, SklearnFacts.normalize_zero, Hb.
Qed.

Lemma values_zeros_all_zero (n : nat) : Forall (eq 0%R) (values (np_zeros n)).
Proof.
  rewrite values_zeros; induction n as [|n IH]; simpl; constructor; auto.
Qed.

(** Exact arithmetic keeps the cosine within -1 and 1. *)
Lemma calculate_similarity_exact_range (a b : ndarray) :
  (-1 <= calculate_similarity a b <= 1)%R.
Proof.
  unfold calculate_similarity, Sklearn.cosine_similarity.
  destruct (_ && _)%bool; [apply SklearnFacts.dot_normalize_bounds | lra].
Qed.

(** C6.  [detect_duplicate_articles a b t] returns the pair [(d, s)] with
    [s = calculate_similarity a b] and [d] true exactly when [s >= t]; a
    call without a threshold is the call with 0.85. *)
Theorem detect_duplicate_articles_threshold (a b : ndarray) (t : R) :
  snd (detect_duplicate_articles a b (Some t)) = calculate_similarity a b /\
  (fst (detect_duplicate_articles a b (Some t)) = true <->
   (calculate_similarity a b >= t)%R) /\
  detect_duplicate_articles a b None
  = detect_duplicate_articles a b (Some (85 / 100)%R).
Proof.
  unfold detect_duplicate_articles; simpl; split; [reflexivity|split].
  - apply Rgeb_true.
  - reflexivity.
Qed.

(** C8.  Deserializing the serialization of any array gives the array
    back, and bytes that [pickle.loads] rejects deserialize to the zero
    array of 384 entries. *)
Theorem embedding_codec_roundtrip :
  (forall v : ndarray,
     deserialize_embedding (Some (serialize_embedding v)) = v) /\
  (forall data : bytes,
     pickle_loads data = None ->
     deserialize_embedding (Some data) = np_zeros 384 /\
     values (deserialize_embedding (Some data)) = repeat 0%R 384).
Proof.
  split.
  - intros v; unfold deserialize_embedding, serialize_embedding.
    rewrite pickle_loads_dumps; reflexivity.
  - intros data Hbad; unfold deserialize_embedding; rewrite Hbad.
    split; [reflexivity | apply values_zeros].
Qed.

(** When the encoder raises, [get_embedding] is the zero array of 384
    entries. *)
Lemma get_embedding_fallback (text : string) :
  model_encode text = None ->
  get_embedding text = np_zeros 384 /\
  values (get_embedding text) = repeat 0%R 384.
Proof.
  intros Hfail; unfold get_embedding; rewrite Hfail.
  split; [reflexivity | apply values_zeros].
Qed.

(** The zero array is never a duplicate of anything, at threshold 0.85. *)
Lemma detect_zero_vector (n : nat) (b : ndarray) :
  detect_duplicate_articles (np_zeros n) b (Some (85 / 100)%R) = (false, 0%R).
Proof.
  unfold detect_duplicate_articles.
  rewrite (calculate_similarity_zero_l _ _ (values_zeros_all_zero n)).
  f_equal; apply Rgeb_false; lra.
Qed.

End EmbeddingsFacts.

(* ------------------------------------------------------------------ *)
(** ** The scorer on floats *)
(* ------------------------------------------------------------------ *)

(** Arrays of different length score the float zero, in every dtype. *)
Lemma ieee_calculate_similarity_mismatch (t : Ieee.dtype)
  (a b : Ieee.ndarray) :
  List.length a <> List.length b ->
  Ieee.calculate_similarity t a b = Ieee.of_Z t 0.
Proof.
  intros Hlen; unfold Ieee.calculate_similarity, Ieee.cosine_similarity.
  apply Nat.eqb_neq in Hlen; rewrite Hlen; reflexivity.
Qed.

(** C5 fails on the program.  The float32 array [3, 4, 3] scored against
    itself gives 8388609 * 2^-23 = 1.00000011920928955, and the float64
    array [1, 1, 1] scored against itself gives
    4503599627370497 * 2^-52 = 1.0000000000000002: both results are
    larger than 1, outside the range from -1 to 1. *)
Theorem calculate_similarity_exceeds_one :
  let v32 := map (Ieee.of_Z Ieee.float32) [3; 4; 3]%Z in
  let v64 := map (Ieee.of_Z Ieee.float64) [1; 1; 1]%Z in
  Ieee.calculate_similarity Ieee.float32 v32 v32
  = S754_finite false 8388609 (-23) /\
  SFltb (Ieee.of_Z Ieee.float32 1)
    (Ieee.calculate_similarity Ieee.float32 v32 v32) = true /\
  Ieee.calculate_similarity Ieee.float64 v64 v64
  = S754_finite false 4503599627370497 (-52) /\
  SFltb (Ieee.of_Z Ieee.float64 1)
    (Ieee.calculate_similarity Ieee.float64 v64 v64) = true.
Proof. vm_compute; repeat split. Qed.

(* ================================================================== *)
(** * The ranker: [sort(key=..., reverse=True)] and the slice *)
(* ================================================================== *)

Section SortFacts.

Context {A : Type} (key : A -> R).

Let desc (x y : A) : Prop := (key x >= key y)%R.

Lemma insert_desc_perm (x : A) (l : list A) :
  Permutation (x :: l) (insert_desc key x l).
Proof.
  induction l as [|y l IH]; simpl; [reflexivity|].
  destruct (Rgeb (key x) (key y)); [reflexivity|].
  rewrite perm_swap; apply perm_skip, IH.
Qed.

Lemma sort_desc_perm (l : list A) : Permutation l (sort_desc key l).
Proof.
  induction l as [|x l IH]; simpl; [constructor|].
  rewrite <- insert_desc_perm; apply perm_skip, IH.
Qed.

Lemma sort_desc_length (l : list A) :
  List.length (sort_desc key l) = List.length l.
Proof. symmetry; apply Permutation_length, sort_desc_perm. Qed.

Lemma insert_desc_sorted (x : A) (l : list A) :
  StronglySorted desc l -> StronglySorted desc (insert_desc key x l).
Proof.
  induction 1 as [|y l Hs IH Hy]; simpl.
  - constructor; constructor.
  - destruct (Rgeb (key x) (key y)) eqn:Hxy.
    + apply Rgeb_true in Hxy.
      constructor; [constructor; assumption|].
      constructor; [exact Hxy|].
      rewrite Forall_forall in Hy |- *; intros z Hz.
      specialize (Hy z Hz); unfold desc in *; lra.
    + apply Rgeb_false in Hxy.
      constructor; [exact IH|].
      rewrite Forall_forall in Hy |- *; intros z Hz.
      apply (Permutation_in z (Permutation_sym (insert_desc_perm x l))) in Hz.
      destruct Hz as [<-|Hz]; [unfold desc; lra | apply Hy, Hz].
Qed.

Lemma sort_desc_sorted (l : list A) : StronglySorted desc (sort_desc key l).
Proof.
  induction l as [|x l IH]; simpl; [constructor|].
  apply insert_desc_sorted, IH.
Qed.

(** Entries with equal keys keep their input order. *)
Lemma sort_desc_stable (k : R) (l : list A) :
  let same := fun x => if Req_dec_T (key x) k then true else false in
  filter same (sort_desc key l) = filter same l.
Proof.
  intros same.
  assert (Hins : forall x m,
            filter same (insert_desc key x m) = filter same (x :: m)).
  { intros x m; induction m as [|y m IH]; [reflexivity|].
    cbn [insert_desc].
    destruct (Rgeb (key x) (key y)) eqn:Hxy; [reflexivity|].
    apply Rgeb_false in Hxy.
    cbn [filter] in *; rewrite IH.
    destruct (same x) eqn:Hx; destruct (same y) eqn:Hy; try reflexivity.
    exfalso; unfold same in Hx, Hy.
    destruct (Req_dec_T (key x) k); [|discriminate].
    destruct (Req_dec_T (key y) k); [|discriminate].
    lra. }
  induction l as [|x l IH]; [reflexivity|].
  cbn [sort_desc fold_right].
  change (fold_right (insert_desc key) [] l) with (sort_desc key l).
  rewrite Hins; cbn [filter]; rewrite IH; reflexivity.
Qed.

End SortFacts.

Lemma slice_to_nil {A : Type} (k : Z) : slice_to k (@nil A) = [].
Proof. unfold slice_to; destruct (0 <=? k)%Z; apply firstn_nil. Qed.

Lemma slice_to_all {A : Type} (k : Z) (l : list A) :
  (Z.of_nat (List.length l) <= k)%Z -> slice_to k l = l.
Proof.
  intros Hk; unfold slice_to.
  destruct (0 <=? k)%Z eqn:Hpos; [|apply Z.leb_gt in Hpos; lia].
  apply firstn_all2; lia.
Qed.

Lemma slice_to_firstn {A : Type} (k : Z) (l : list A) :
  (0 <= k)%Z -> slice_to k l = firstn (Z.to_nat k) l.
Proof.
  intros Hk; unfold slice_to; apply Z.leb_le in Hk; rewrite Hk; reflexivity.
Qed.

Section RankerFacts.

Context `{Pickle} `{!Encoder}.

(** The loop scores exactly the articles that carry an embedding, in
    input order. *)
Lemma score_articles_spec (q : ndarray) (articles : list search_item) :
  score_articles q articles
  = map (fun a => (a, calculate_similarity q
                        (deserialize_embedding (item_embedding a))))
        (filter has_embedding articles).
Proof.
  induction articles as [|a l IH]; simpl; [reflexivity|].
  destruct (has_embedding a); simpl; rewrite IH; reflexivity.
Qed.

(** On articles that all carry an embedding the guard of the loop never
    skips. *)
Lemma filter_has_embedding (articles : list search_item) :
  Forall (fun a => has_embedding a = true) articles ->
  filter has_embedding articles = articles.
Proof.
  induction 1 as [|a l Ha _ IH]; simpl; [reflexivity|].
  rewrite Ha, IH; reflexivity.
Qed.

(** C7.  On a list of article dictionaries with embeddings (the input the
    docstring names, and what [POST /search] passes),
    [semantic_search_articles] scores the query against every article,
    orders the scored entries by descending similarity and keeps the first
    [top_k]; a [top_k] of at least the number of articles returns all of
    them, ranked, and an empty collection gives the empty list.  No case
    raises. *)
Theorem semantic_search_ranked
  (query : string) (articles : list search_item) (top_k : Z) :
  Forall (fun a => has_embedding a = true) articles ->
  let q := get_embedding query in
  let scored :=
    map (fun a => (a, calculate_similarity q
                        (deserialize_embedding (item_embedding a))))
        articles in
  exists ranked : list (search_item * R),
    Permutation scored ranked /\
    StronglySorted (fun x y => (snd x >= snd y)%R) ranked /\
    ((0 <= top_k)%Z ->
     semantic_search_articles query articles top_k
     = firstn (Z.to_nat top_k) ranked) /\
    ((Z.of_nat (List.length articles) <= top_k)%Z ->
     semantic_search_articles query articles top_k = ranked) /\
    (articles = [] -> semantic_search_articles query articles top_k = []).
Proof.
  intros Hall q scored.
  exists (sort_desc snd scored).
  assert (Hdef : semantic_search_articles query articles top_k
                 = slice_to top_k (sort_desc snd scored)).
  { unfold semantic_search_articles.
    rewrite score_articles_spec, (filter_has_embedding _ Hall); reflexivity. }
  split; [apply sort_desc_perm|].
  split; [apply (sort_desc_sorted snd)|].
  split; [|split].
  - intros Hk; rewrite Hdef; apply slice_to_firstn, Hk.
  - intros Hk; rewrite Hdef; apply slice_to_all.
    rewrite sort_desc_length; subst scored; rewrite length_map; exact Hk.
  - intros ->; rewrite Hdef; subst scored; simpl; apply slice_to_nil.
Qed.

End RankerFacts.

(* ================================================================== *)
(** * The completion parsers *)
(* ================================================================== *)

Module ReFacts.

Import Re.
Local Open Scope string_scope.

Lemma upto_last_none (c : ascii) (s : string) :
  upto_last c s = None <-> occurs c s = false.
Proof.
  induction s as [|a r IH]; simpl; [tauto|].
  destruct (upto_last c r) as [p|].
  - split; [discriminate|].
    intros Hocc; apply orb_false_elim in Hocc as [_ Hr].
    apply IH in Hr; discriminate.
  - destruct IH as [IH _]; rewrite (IH eq_refl), orb_false_r.
    destruct (Ascii.eqb a c); split; congruence.
Qed.

Lemma upto_last_intro (c : ascii) (mid post : string) :
  occurs c post = false ->
  upto_last c (mid ++ String c post) = Some (mid ++ String c EmptyString).
Proof.
  intros Hpost; induction mid as [|a mid IH]; simpl.
  - apply upto_last_none in Hpost; rewrite Hpost, Ascii.eqb_refl; reflexivity.
  - rewrite IH; reflexivity.
Qed.

Lemma upto_last_some (c : ascii) (s p : string) :
  upto_last c s = Some p ->
  exists mid post,
    s = mid ++ String c post /\ p = mid ++ String c EmptyString /\
    occurs c post = false.
Proof.
  revert p; induction s as [|a r IH]; simpl; intros p Hp; [discriminate|].
  destruct (upto_last c r) as [q|] eqn:Hr.
  - injection Hp as <-.
    destruct (IH q eq_refl) as (mid & post & -> & -> & Hpost).
    exists (String a mid), post; auto.
  - destruct (Ascii.eqb a c) eqn:Hac; [|discriminate].
    injection Hp as <-; apply Ascii.eqb_eq in Hac as ->.
    exists EmptyString, r; repeat split; apply upto_last_none, Hr.
Qed.

(** The match runs from the leftmost opening brace to the last closing
    brace. *)
Lemma search_braces_intro (pre mid post : string) :
  occurs "{"%char pre = false ->
  occurs "}"%char post = false ->
  search_braces (pre ++ String "{"%char (mid ++ String "}"%char post))
  = Some (String "{"%char (mid ++ String "}"%char EmptyString)).
Proof.
  intros Hpre Hpost; induction pre as [|a pre IH]; simpl.
  - rewrite (upto_last_intro _ mid post Hpost); reflexivity.
  - simpl in Hpre; apply orb_false_elim in Hpre as [Ha Hpre].
    rewrite Ha; apply IH, Hpre.
Qed.

Lemma search_braces_some (s m : string) :
  search_braces s = Some m ->
  exists pre mid post,
    s = pre ++ String "{"%char (mid ++ String "}"%char post) /\
    m = String "{"%char (mid ++ String "}"%char EmptyString) /\
    occurs "{"%char pre = false /\ occurs "}"%char post = false.
Proof.
  revert m; induction s as [|a r IH]; simpl; intros m Hm; [discriminate|].
  destruct (Ascii.eqb a "{"%char) eqn:Ha.
  - apply Ascii.eqb_eq in Ha as ->.
    destruct (upto_last "}"%char r) as [p|] eqn:Hr; [|discriminate].
    injection Hm as <-.
    destruct (upto_last_some _ _ _ Hr) as (mid & post & -> & -> & Hpost).
    exists EmptyString, mid, post; auto.
  - destruct (IH m Hm) as (pre & mid & post & -> & -> & Hpre & Hpost).
    exists (String a pre), mid, post; simpl; rewrite Ha; auto.
Qed.

End ReFacts.

Section GroqFacts.

Context `{JsonLib} `{Groq}.

Local Open Scope string_scope.

Lemma parse_entities_span (response_text pre mid post : string) :
  json_loads response_text = None ->
  response_text = pre ++ String "{"%char (mid ++ String "}"%char post) ->
  Re.occurs "{"%char pre = false ->
  Re.occurs "}"%char post = false ->
  parse_entities response_text
  = match json_loads (String "{"%char (mid ++ String "}"%char EmptyString)) with
    | Some v => v
    | None => empty_entities
    end.
Proof.
  intros Hbad -> Hpre Hpost; unfold parse_entities.
  rewrite Hbad, ReFacts.search_braces_intro by assumption; reflexivity.
Qed.

Lemma parse_sentiment_span (response_text pre mid post : string) :
  json_loads response_text = None ->
  response_text = pre ++ String "{"%char (mid ++ String "}"%char post) ->
  Re.occurs "{"%char pre = false ->
  Re.occurs "}"%char post = false ->
  parse_sentiment response_text
  = match json_loads (String "{"%char (mid ++ String "}"%char EmptyString)) with
    | Some v => v
    | None => neutral_sentiment
    end.
Proof.
  intros Hbad -> Hpre Hpost; unfold parse_sentiment.
  rewrite Hbad, ReFacts.search_braces_intro by assumption; reflexivity.
Qed.

Lemma search_braces_no_span (response_text : string) :
  (forall pre mid post,
     response_text <> pre ++ String "{"%char (mid ++ String "}"%char post)) ->
  Re.search_braces response_text = None.
Proof.
  intros Hno; destruct (Re.search_braces response_text) as [m|] eqn:Hm;
    [|reflexivity].
  destruct (ReFacts.search_braces_some _ _ Hm) as (pre & mid & post & Hs & _).
  exfalso; exact (Hno pre mid post Hs).
Qed.

(** C4, as the code has it.  For a completion that [json.loads] rejects,
    [extract_entities] and [analyze_sentiment] take the span from the first
    opening brace to the last closing brace of the completion and return
    what [json.loads] makes of that span; when the span is rejected as
    well, or the completion holds no such span, they return the default
    object (empty entity lists; neutral sentiment with score 0.0).  Every
    case returns a value. *)
Theorem completion_parsers_greedy_span (text response_text : string) :
  json_loads response_text = None ->
  (forall pre mid post,
     response_text = pre ++ String "{"%char (mid ++ String "}"%char post) ->
     Re.occurs "{"%char pre = false ->
     Re.occurs "}"%char post = false ->
     let span := String "{"%char (mid ++ String "}"%char EmptyString) in
     (complete_entities text = Some response_text ->
      extract_entities text
      = match json_loads span with Some v => v | None => empty_entities end) /\
     (complete_sentiment text = Some response_text ->
      analyze_sentiment text
      = match json_loads span with Some v => v | None => neutral_sentiment end))
  /\
  ((forall pre mid post,
      response_text <> pre ++ String "{"%char (mid ++ String "}"%char post)) ->
   (complete_entities text = Some response_text ->
    extract_entities text = empty_entities) /\
   (complete_sentiment text = Some response_text ->
    analyze_sentiment text = neutral_sentiment)).
Proof.
  intros Hbad; split.
  - intros pre mid post Hs Hpre Hpost span; split; intros Hc.
    + unfold extract_entities; rewrite Hc.
      apply (parse_entities_span _ pre mid post); assumption.
    + unfold analyze_sentiment; rewrite Hc.
      apply (parse_sentiment_span _ pre mid post); assumption.
  - intros Hno; apply search_braces_no_span in Hno; split; intros Hc.
    + unfold extract_entities, parse_entities; rewrite Hc, Hbad, Hno.
      reflexivity.
    + unfold analyze_sentiment, parse_sentiment; rewrite Hc, Hbad, Hno.
      reflexivity.
Qed.

End GroqFacts.

(** The as-stated reading of C4 fails on a completion with two objects:
    [json.loads] rejects the completion, its first well-formed object is a
    prefix that [json.loads] accepts, and the parsers return the default
    instead of that object. *)
Lemma completion_parsers_miss_first_object :
  JsonReader.loads Demo.two_objects = None /\
  Demo.two_objects
  = (Demo.first_object ++ " and {" ++ quoted "note" ++ ": 1}")%string /\
  JsonReader.loads Demo.first_object
  = Some (JObj [("companies", JArr [JStr "TCS"])]) /\
  @extract_entities Demo.jsonlib
    {| complete_entities := fun _ => Some Demo.two_objects;
       complete_stock_impact := fun _ _ => None;
       complete_sentiment := fun _ => Some Demo.two_objects |}
    "any article"
  = empty_entities /\
  @analyze_sentiment Demo.jsonlib
    {| complete_entities := fun _ => Some Demo.two_objects;
       complete_stock_impact := fun _ _ => None;
       complete_sentiment := fun _ => Some Demo.two_objects |}
    "any article"
  = neutral_sentiment.
Proof. repeat split; vm_compute; reflexivity. Qed.

(** [completion_parsers_greedy_span] on a reply with text around one
    object. *)
Lemma completion_parsers_greedy_span_witness :
  JsonReader.loads Demo.entities_reply = None /\
  @extract_entities Demo.jsonlib Demo.groq Demo.text_a
  = JObj [("companies", JArr [JStr "HDFC Bank"]);
          ("regulators", JArr [JStr "RBI"])].
Proof.
  split; [vm_compute; reflexivity|].
  pose proof (@completion_parsers_greedy_span Demo.jsonlib Demo.groq
                Demo.text_a Demo.entities_reply eq_refl) as [Hspan _].
  specialize (Hspan "Here is the JSON: "%string
                (quoted "companies" ++ ": [" ++ quoted "HDFC Bank" ++ "], "
                 ++ quoted "regulators" ++ ": [" ++ quoted "RBI" ++ "]")%string
                " "%string eq_refl eq_refl eq_refl).
  destruct Hspan as [Hent _].
  rewrite (Hent eq_refl); vm_compute; reflexivity.
Defined.

(* ================================================================== *)
(** * The ingestion handler *)
(* ================================================================== *)

Section MonadFacts.

Lemma bind_core {A B : Type} (m : M A) (f : A -> M B) :
  (forall db, core (fst (m db)) = core db) ->
  (forall a db, core (fst (f a db)) = core db) ->
  forall db, core (fst (bind m f db)) = core db.
Proof.
  intros Hm Hf db; unfold bind.
  specialize (Hm db); destruct (m db) as [db1 [e|a]]; simpl in *.
  - exact Hm.
  - rewrite Hf; exact Hm.
Qed.

Lemma for_each_core {A : Type} (l : list A) (body : A -> M unit) :
  (forall a db, core (fst (body a db)) = core db) ->
  forall db, core (fst (for_each l body db)) = core db.
Proof.
  intros Hbody; induction l as [|a l IH]; intros db; simpl; [reflexivity|].
  apply bind_core; auto.
Qed.

Lemma py_items_core (v : json) (db : database) :
  core (fst (py_items v db)) = core db.
Proof. destruct v; reflexivity. Qed.

Lemma py_get_core (v : json) (k : string) (d : json) (db : database) :
  core (fst (py_get v k d db)) = core db.
Proof. destruct v; reflexivity. Qed.

Lemma py_iter_core (v : json) (db : database) :
  core (fst (py_iter v db)) = core db.
Proof. destruct v; reflexivity. Qed.

Lemma insert_entity_core (i : Z) (t : json) (k : string) (c : json)
  (db : database) : core (fst (insert_entity i t k c db)) = core db.
Proof.
  unfold insert_entity.
  destruct (negb (bindable t)); [reflexivity|].
  destruct (is_null t); reflexivity.
Qed.

Lemma insert_stock_impact_core (i : Z) (a b c d : json) (db : database) :
  core (fst (insert_stock_impact i a b c d db)) = core db.
Proof.
  unfold insert_stock_impact.
  destruct (first_unbindable _); [reflexivity|].
  destruct (is_null a); reflexivity.
Qed.

(** Whether a computation returns or raises, and with what, when that
    does not depend on the state it starts from. *)
Lemma bind_blind {A B : Type} (m : M A) (f : A -> M B) :
  (forall db db', snd (m db) = snd (m db')) ->
  (forall a db db', snd (f a db) = snd (f a db')) ->
  forall db db', snd (bind m f db) = snd (bind m f db').
Proof.
  intros Hm Hf db db'; unfold bind; specialize (Hm db db').
  destruct (m db) as [d1 [e|a]], (m db') as [d1' [e'|a']];
    cbn [snd] in Hm; try discriminate.
  - injection Hm as ->; reflexivity.
  - injection Hm as ->; apply Hf.
Qed.

Lemma for_each_blind {A : Type} (l : list A) (body : A -> M unit) :
  (forall a db db', snd (body a db) = snd (body a db')) ->
  forall db db', snd (for_each l body db) = snd (for_each l body db').
Proof.
  intros Hbody; induction l as [|a l IH]; simpl; [reflexivity|].
  apply bind_blind; auto.
Qed.

Lemma py_items_blind (v : json) (db db' : database) :
  snd (py_items v db) = snd (py_items v db').
Proof. destruct v; reflexivity. Qed.

Lemma py_get_blind (v : json) (k : string) (d : json) (db db' : database) :
  snd (py_get v k d db) = snd (py_get v k d db').
Proof. destruct v; reflexivity. Qed.

Lemma py_iter_blind (v : json) (db db' : database) :
  snd (py_iter v db) = snd (py_iter v db').
Proof. destruct v; reflexivity. Qed.

Lemma insert_entity_blind (i : Z) (t : json) (k : string) (c : json)
  (db db' : database) :
  snd (insert_entity i t k c db) = snd (insert_entity i t k c db').
Proof.
  unfold insert_entity.
  destruct (negb (bindable t)); [reflexivity|].
  destruct (is_null t); reflexivity.
Qed.

Lemma insert_stock_impact_blind (i : Z) (a b c d : json)
  (db db' : database) :
  snd (insert_stock_impact i a b c d db)
  = snd (insert_stock_impact i a b c d db').
Proof.
  unfold insert_stock_impact.
  destruct (first_unbindable _); [reflexivity|].
  destruct (is_null a); reflexivity.
Qed.

End MonadFacts.

Section AppFacts.

Context `{Pickle} `{!Encoder} `{JsonLib} `{Groq}.

Local Notation "'unique'" :=
  (fun r : article_row => negb (a_is_duplicate r)).

Lemma store_entities_core (i : Z) (v : json) (db : database) :
  core (fst (store_entities i v db)) = core db.
Proof.
  unfold store_entities; revert db.
  apply bind_core; [apply py_items_core|]; intros items.
  apply for_each_core; intros [entity_type entities_list].
  apply bind_core; [apply py_iter_core|]; intros texts.
  apply for_each_core; intros t; apply insert_entity_core.
Qed.

Lemma store_stock_impacts_core (i : Z) (text : string) (v : json)
  (db : database) : core (fst (store_stock_impacts i text v db)) = core db.
Proof.
  unfold store_stock_impacts; revert db.
  apply bind_core; [apply py_items_core|]; intros items.
  apply for_each_core; intros [entity_type entities_list].
  destruct (is_company_or_sector entity_type); [|reflexivity].
  apply bind_core; [apply py_iter_core|]; intros texts.
  apply for_each_core; intros t.
  apply bind_core; [apply py_get_core|]; intros stocks.
  apply bind_core; [apply py_iter_core|]; intros stock_list.
  apply for_each_core; intros stock.
  apply bind_core; [apply py_get_core|]; intros symbol.
  apply bind_core; [apply py_get_core|]; intros impact_type.
  apply bind_core; [apply py_get_core|]; intros confidence.
  apply insert_stock_impact_core.
Qed.

(** Enrichment writes entity and stock-impact rows only. *)
Lemma enrich_core (text : string) (i : Z) (db : database) :
  core (fst (enrich text i db)) = core db.
Proof.
  unfold enrich; revert db.
  apply bind_core; [apply store_entities_core|]; intros _.
  apply bind_core; [apply store_stock_impacts_core|]; intros _.
  reflexivity.
Qed.

Lemma store_entities_blind (i : Z) (v : json) (db db' : database) :
  snd (store_entities i v db) = snd (store_entities i v db').
Proof.
  unfold store_entities; revert db db'.
  apply bind_blind; [apply py_items_blind|]; intros items.
  apply for_each_blind; intros [entity_type entities_list].
  apply bind_blind; [apply py_iter_blind|]; intros texts.
  apply for_each_blind; intros t; apply insert_entity_blind.
Qed.

Lemma store_stock_impacts_blind (i : Z) (text : string) (v : json)
  (db db' : database) :
  snd (store_stock_impacts i text v db)
  = snd (store_stock_impacts i text v db').
Proof.
  unfold store_stock_impacts; revert db db'.
  apply bind_blind; [apply py_items_blind|]; intros items.
  apply for_each_blind; intros [entity_type entities_list].
  destruct (is_company_or_sector entity_type); [|reflexivity].
  apply bind_blind; [apply py_iter_blind|]; intros texts.
  apply for_each_blind; intros t.
  apply bind_blind; [apply py_get_blind|]; intros stocks.
  apply bind_blind; [apply py_iter_blind|]; intros stock_list.
  apply for_each_blind; intros stock.
  apply bind_blind; [apply py_get_blind|]; intros symbol.
  apply bind_blind; [apply py_get_blind|]; intros impact_type.
  apply bind_blind; [apply py_get_blind|]; intros confidence.
  apply insert_stock_impact_blind.
Qed.

(** Whether enrichment raises, and the dictionary it returns, depend on
    the text and on the article id only, not on the rows stored so far. *)
Lemma enrich_blind (text : string) (i : Z) (db db' : database) :
  snd (enrich text i db) = snd (enrich text i db').
Proof.
  unfold enrich; revert db db'.
  apply bind_blind; [apply store_entities_blind|]; intros _.
  apply bind_blind; [apply store_stock_impacts_blind|]; intros _.
  reflexivity.
Qed.

(** With the language model down, enrichment writes nothing and does not
    raise. *)
Lemma enrich_defaults (text : string) (i : Z) (db : database) :
  complete_entities text = None ->
  enrich text i db = (db, inr empty_entities).
Proof.
  intros Hdown; unfold enrich, extract_entities; rewrite Hdown; reflexivity.
Qed.

Lemma add_article_try_eq (article : Article) (db : database) :
  let embedding := get_embedding (content article) in
  let found := scan_existing embedding (filter unique (articles db)) in
  add_article_try article db
  = add_article_store article (serialize_embedding embedding)
      (fst found) (snd found) db.
Proof.
  intros embedding found; unfold add_article_try, bind, select_unique_articles.
  fold embedding; fold found; destruct found; reflexivity.
Qed.

Lemma add_article_store_conflict (article : Article) (b : bytes)
  (dup : bool) (canon : option Z) (db : database) :
  url_taken (url article) (articles db) = true ->
  add_article_store article b dup canon db = (db, inl IntegrityError).
Proof.
  intros Htaken; unfold add_article_store, bind, insert_article.
  rewrite Htaken; reflexivity.
Qed.

Lemma add_article_store_fresh (article : Article) (b : bytes)
  (dup : bool) (canon : option Z) (db : database) :
  url_taken (url article) (articles db) = false ->
  let row := {| a_id := next_rowid db; a_title := title article;
                a_content := content article; a_source := source article;
                a_url := url article;
                a_published_date := published_date article;
                a_embedding := Some b; a_is_duplicate := dup;
                a_canonical_id := canon |} in
  add_article_store article b dup canon db
  = match enrich (content article) (next_rowid db) (add_row db row) with
    | (db', inr entities_data) =>
        (db', inr {| resp_id := next_rowid db;
                     resp_title := title article;
                     resp_is_duplicate := dup;
                     resp_canonical_id := canon;
                     resp_entities := entities_data;
                     resp_sentiment := analyze_sentiment (content article);
                     resp_message := "Article added successfully" |})
    | (db', inl e) => (db', inl e)
    end.
Proof.
  intros Hfree row; unfold add_article_store, bind, insert_article.
  rewrite Hfree; cbn [a_id]; fold row.
  destruct (enrich (content article) (next_rowid db) (add_row db row))
    as [db' [e|entities_data]]; reflexivity.
Qed.

(** What a successful call has done. *)
Lemma add_article_returned (article : Article) (db db' : database)
  (body : response) :
  add_article article db = (db', Returned body) ->
  let embedding := get_embedding (content article) in
  let found := scan_existing embedding (filter unique (articles db)) in
  let row := {| a_id := next_rowid db; a_title := title article;
                a_content := content article; a_source := source article;
                a_url := url article;
                a_published_date := published_date article;
                a_embedding := Some (serialize_embedding embedding);
                a_is_duplicate := fst found;
                a_canonical_id := snd found |} in
  url_taken (url article) (articles db) = false /\
  core db' = (articles db ++ [row], next_rowid db, deduplication_records db) /\
  resp_id body = next_rowid db /\
  resp_is_duplicate body = fst found /\
  resp_canonical_id body = snd found /\
  enrich (content article) (next_rowid db) (add_row db row)
  = (db', inr (resp_entities body)).
Proof.
  intros Hret embedding found row; unfold add_article in Hret.
  rewrite add_article_try_eq in Hret; fold embedding found in Hret.
  destruct (url_taken (url article) (articles db)) eqn:Hurl.
  { rewrite add_article_store_conflict in Hret by assumption; discriminate. }
  rewrite add_article_store_fresh in Hret by assumption; fold row in Hret.
  pose proof (enrich_core (content article) (next_rowid db) (add_row db row))
    as Hcore.
  destruct (enrich (content article) (next_rowid db) (add_row db row))
    as [db1 [e|entities_data]]; [discriminate|].
  injection Hret as <- <-; simpl in *.
  repeat split; assumption.
Qed.

(** A failed call leaves the committed database as it was. *)
Lemma add_article_raised (article : Article) (db db' : database)
  (status : Z) (e : pyexc) :
  add_article article db = (db', HTTPException status e) ->
  db' = db /\ status = 500%Z.
Proof.
  unfold add_article.
  destruct (add_article_try article db) as [db1 [e'|body]]; [|discriminate].
  intros Hraise; injection Hraise as <- <- _; split; reflexivity.
Qed.

(** The scan returns the first row that reaches the threshold. *)
Lemma scan_existing_first_match (embedding : ndarray)
  (before : list article_row) (hit : article_row) (after : list article_row) :
  (forall x, In x before ->
     (calculate_similarity embedding (deserialize_embedding (a_embedding x))
      < 85 / 100)%R) ->
  (calculate_similarity embedding (deserialize_embedding (a_embedding hit))
   >= 85 / 100)%R ->
  scan_existing embedding (before ++ hit :: after) = (true, Some (a_id hit)).
Proof.
  intros Hbefore Hhit; induction before as [|x before IH]; simpl.
  - apply Rgeb_true in Hhit; rewrite Hhit; reflexivity.
  - assert (Hx : In x (x :: before)) by (left; reflexivity).
    apply Hbefore, Rgeb_false in Hx; rewrite Hx.
    apply IH; intros y Hy; apply Hbefore; right; exact Hy.
Qed.

Lemma scan_existing_no_match (embedding : ndarray) (rows : list article_row) :
  (forall x, In x rows ->
     (calculate_similarity embedding (deserialize_embedding (a_embedding x))
      < 85 / 100)%R) ->
  scan_existing embedding rows = (false, None).
Proof.
  intros Hrows; induction rows as [|x rows IH]; simpl; [reflexivity|].
  assert (Hx : In x (x :: rows)) by (left; reflexivity).
  apply Hrows, Rgeb_false in Hx; rewrite Hx.
  apply IH; intros y Hy; apply Hrows; right; exact Hy.
Qed.

End AppFacts.

(* ================================================================== *)
(** * The concrete world: similarities and runs *)
(* ================================================================== *)

Section DemoFacts.

#[local] Existing Instance Demo.numpy.
#[local] Existing Instance Demo.pickle.
#[local] Existing Instance Demo.encoder.
#[local] Existing Instance Demo.jsonlib.
#[local] Existing Instance Demo.groq.

Local Open Scope R_scope.

Lemma values_vec_a : values Demo.vec_a = [3; 2; 1].
Proof. reflexivity. Qed.

Lemma values_vec_b : values Demo.vec_b = [1; 3; 2].
Proof. reflexivity. Qed.

Lemma values_vec_c : values Demo.vec_c = [2; 1; 3].
Proof. reflexivity. Qed.

Lemma values_vec_d : values Demo.vec_d = [3; 4; 3].
Proof. reflexivity. Qed.

(** Decides a comparison of a concrete cosine with a rational threshold
    through the squared criteria. *)
Ltac cosine_compare values1 values2 :=
  unfold calculate_similarity, Sklearn.cosine_similarity;
  rewrite values1, values2; cbn [List.length Nat.eqb andb negb];
  first [ apply Rle_ge, SklearnFacts.cosine_ge
        | apply SklearnFacts.cosine_lt ];
  cbn [Sklearn.dot]; lra.

Lemma similarity_d_a :
  calculate_similarity (Demo.vec_d : ndarray) Demo.vec_a >= 85 / 100.
Proof. cosine_compare values_vec_d values_vec_a. Qed.

Lemma similarity_d_b :
  calculate_similarity (Demo.vec_d : ndarray) Demo.vec_b >= 85 / 100.
Proof. cosine_compare values_vec_d values_vec_b. Qed.

Lemma similarity_d_c :
  calculate_similarity (Demo.vec_d : ndarray) Demo.vec_c >= 85 / 100.
Proof. cosine_compare values_vec_d values_vec_c. Qed.

Lemma similarity_b_a :
  calculate_similarity (Demo.vec_b : ndarray) Demo.vec_a < 85 / 100.
Proof. cosine_compare values_vec_b values_vec_a. Qed.

Lemma similarity_c_a :
  calculate_similarity (Demo.vec_c : ndarray) Demo.vec_a < 85 / 100.
Proof. cosine_compare values_vec_c values_vec_a. Qed.

Lemma similarity_c_b :
  calculate_similarity (Demo.vec_c : ndarray) Demo.vec_b < 85 / 100.
Proof. cosine_compare values_vec_c values_vec_b. Qed.

(** D is closer to B than to A. *)
Lemma similarity_d_b_best :
  calculate_similarity (Demo.vec_d : ndarray) Demo.vec_a
  < calculate_similarity (Demo.vec_d : ndarray) Demo.vec_b.
Proof.
  apply Rlt_le_trans with (93 / 100).
  - cosine_compare values_vec_d values_vec_a.
  - apply Rge_le; cosine_compare values_vec_d values_vec_b.
Qed.

End DemoFacts.

(* ================================================================== *)
(** * Claims about [add_article] *)
(* ================================================================== *)

Section Ingestion.

Context `{Pickle} `{!Encoder} `{JsonLib} `{Groq}.

Local Notation "'unique'" :=
  (fun r : article_row => negb (a_is_duplicate r)).

Lemma url_taken_in (u : string) (r : article_row) (rows : list article_row) :
  In r rows -> a_url r = Some u -> url_taken (Some u) rows = true.
Proof.
  intros Hin Hurl; unfold url_taken; apply existsb_exists.
  exists r; split; [assumption|]; rewrite Hurl; apply String.eqb_refl.
Qed.

Lemma scan_existing_zero (n : nat) (rows : list article_row) :
  scan_existing (np_zeros n) rows = (false, None).
Proof.
  apply scan_existing_no_match; intros x _.
  rewrite (calculate_similarity_zero_l _ _ (values_zeros_all_zero n)); lra.
Qed.

(** C3.  The scan runs over the non-duplicate rows in insertion order and
    stops at the first one whose similarity to the new article reaches
    0.85: that row's id becomes the canonical reference in the response
    and in the stored row, whatever the rows after it score. *)
Theorem add_article_first_match (article : Article) (db db' : database)
  (body : response) (before : list article_row) (hit : article_row)
  (after : list article_row) :
  filter unique (articles db) = before ++ hit :: after ->
  (forall x, In x before ->
     (calculate_similarity (get_embedding (content article))
        (deserialize_embedding (a_embedding x)) < 85 / 100)%R) ->
  (calculate_similarity (get_embedding (content article))
     (deserialize_embedding (a_embedding hit)) >= 85 / 100)%R ->
  add_article article db = (db', Returned body) ->
  scan_existing (get_embedding (content article))
    (filter unique (articles db)) = (true, Some (a_id hit)) /\
  resp_is_duplicate body = true /\
  resp_canonical_id body = Some (a_id hit) /\
  exists row,
    articles db' = articles db ++ [row] /\
    a_id row = resp_id body /\
    a_is_duplicate row = true /\
    a_canonical_id row = Some (a_id hit).
Proof.
  intros Hrows Hbefore Hhit Hret.
  pose proof (scan_existing_first_match _ before hit after Hbefore Hhit)
    as Hscan.
  rewrite <- Hrows in Hscan.
  apply add_article_returned in Hret; cbv zeta in Hret.
  rewrite Hscan in Hret; cbn [fst snd] in Hret.
  destruct Hret as (_ & Hcore & Hid & Hdup & Hcanon & _).
  split; [exact Hscan|]; split; [exact Hdup|]; split; [exact Hcanon|].
  unfold core in Hcore; injection Hcore as Harticles _ _.
  eexists; split; [exact Harticles|].
  cbn [a_id a_is_duplicate a_canonical_id]; auto.
Qed.

(** C2, on the handler: a call that flags the article as a duplicate
    returns with the [deduplication_records] table as it was; no audit
    record is written. *)
Theorem add_article_never_records_duplicates (article : Article)
  (db db' : database) (body : response) :
  add_article article db = (db', Returned body) ->
  resp_is_duplicate body = true ->
  deduplication_records db' = deduplication_records db.
Proof.
  intros Hret _; apply add_article_returned in Hret; cbv zeta in Hret.
  destruct Hret as (_ & Hcore & _).
  unfold core in Hcore; injection Hcore as _ _ Hrecords; exact Hrecords.
Qed.

(** C9.  When the encoder raises on the article's text, [get_embedding]
    is the zero array of 384 entries, the scan flags no duplicate, and the
    failure is absorbed: wherever the call returns with an encoder that
    works, it returns with the failing one too, with the same id, entities
    and sentiment, not flagged as a duplicate, and with the row that
    carries the serialized zero array stored; a call that ends in an
    exception with the failing encoder ends in the same exception with
    every encoder. *)
Theorem add_article_embedding_fallback (article : Article) (db : database) :
  model_encode (content article) = None ->
  let row := {| a_id := next_rowid db; a_title := title article;
                a_content := content article; a_source := source article;
                a_url := url article;
                a_published_date := published_date article;
                a_embedding := Some (serialize_embedding (np_zeros 384));
                a_is_duplicate := false;
                a_canonical_id := None |} in
  let run := add_article article db in
  get_embedding (content article) = np_zeros 384 /\
  values (get_embedding (content article)) = repeat 0%R 384 /\
  scan_existing (get_embedding (content article))
    (filter unique (articles db)) = (false, None) /\
  (forall (other : Encoder) (db2 : database) (body2 : response),
     @add_article _ _ other _ _ article db = (db2, Returned body2) ->
     exists db1,
       run
       = (db1, Returned {| resp_id := resp_id body2;
                           resp_title := resp_title body2;
                           resp_is_duplicate := false;
                           resp_canonical_id := None;
                           resp_entities := resp_entities body2;
                           resp_sentiment := resp_sentiment body2;
                           resp_message := resp_message body2 |}) /\
       resp_id body2 = next_rowid db /\
       articles db1 = articles db ++ [row]) /\
  (forall (other : Encoder) (status : Z) (e : pyexc),
     snd run = HTTPException status e ->
     snd (@add_article _ _ other _ _ article db) = HTTPException status e).
Proof.
  intros Hfail row run.
  destruct (get_embedding_fallback _ Hfail) as [Hzero Hvalues].
  split; [exact Hzero|]; split; [exact Hvalues|].
  split; [rewrite Hzero; apply scan_existing_zero|].
  assert (Hrun : add_article_try article db
                 = add_article_store article
                     (serialize_embedding (np_zeros 384)) false None db).
  { rewrite add_article_try_eq; cbv zeta.
    rewrite Hzero, scan_existing_zero; reflexivity. }
  split.
  - intros other db2 body2 Hret; unfold add_article in Hret.
    rewrite (@add_article_try_eq _ _ other) in Hret; cbv zeta in Hret.
    destruct (url_taken (url article) (articles db)) eqn:Hurl.
    { rewrite add_article_store_conflict in Hret by assumption.
      discriminate. }
    rewrite add_article_store_fresh in Hret by assumption.
    cbv zeta in Hret.
    pose proof (enrich_core (content article) (next_rowid db)
                  (add_row db row)) as Hcore.
    match type of Hret with
    | context [enrich _ _ ?d] =>
        pose proof (enrich_blind (content article) (next_rowid db)
                      (add_row db row) d) as Hblind;
        destruct (enrich (content article) (next_rowid db) d)
          as [d2 [e2|ed2]]; [discriminate|]
    end.
    injection Hret as _ <-.
    destruct (enrich (content article) (next_rowid db) (add_row db row))
      as [db1 [e|entities_data]] eqn:Henrich; cbn [snd fst] in Hblind, Hcore;
      [discriminate|].
    injection Hblind as ->.
    exists db1; split; [|split; [reflexivity|]].
    + unfold run, add_article; rewrite Hrun.
      rewrite add_article_store_fresh by assumption; cbv zeta; fold row.
      rewrite Henrich; reflexivity.
    + unfold core in Hcore; injection Hcore as Harticles _ _; exact Harticles.
  - intros other status e; unfold run, add_article.
    rewrite Hrun, (@add_article_try_eq _ _ other); cbv zeta.
    destruct (url_taken (url article) (articles db)) eqn:Hurl.
    { rewrite !add_article_store_conflict by assumption; auto. }
    rewrite !add_article_store_fresh by assumption; cbv zeta; fold row.
    match goal with
    | |- context [enrich _ _ (add_row db ?r)] =>
        lazymatch r with
        | row => fail
        | _ => pose proof (enrich_blind (content article) (next_rowid db)
                             (add_row db row) (add_row db r)) as Hblind;
               destruct (enrich (content article) (next_rowid db)
                           (add_row db r)) as [d2 [e2|ed2]]
        end
    end;
    destruct (enrich (content article) (next_rowid db) (add_row db row))
      as [d1 [e1|ed1]]; cbn [snd] in *; try discriminate.
    intros Hexc; injection Hblind as <-; exact Hexc.
Qed.

(** C10.  A call whose url equals the url of a stored article ends in an
    HTTP 500 carrying the integrity error of the UNIQUE column, and the
    committed database is the one before the call. *)
Theorem add_article_url_conflict (article : Article) (db : database)
  (u : string) (r : article_row) :
  url article = Some u ->
  In r (articles db) ->
  a_url r = Some u ->
  add_article article db = (db, HTTPException 500 IntegrityError).
Proof.
  intros Hurl Hin Hr; unfold add_article.
  rewrite add_article_try_eq; cbv zeta.
  rewrite add_article_store_conflict; [reflexivity|].
  rewrite Hurl; exact (url_taken_in u r _ Hin Hr).
Qed.

End Ingestion.

(* ================================================================== *)
(** * Runs in the concrete world *)
(* ================================================================== *)

Section DemoRuns.

#[local] Existing Instance Demo.numpy.
#[local] Existing Instance Demo.pickle.
#[local] Existing Instance Demo.encoder.
#[local] Existing Instance Demo.jsonlib.
#[local] Existing Instance Demo.groq.

Local Notation "'unique'" :=
  (fun r : article_row => negb (a_is_duplicate r)).

(** Runs the handler once the result of the scan is known. *)
Ltac run_after Hscan :=
  unfold Demo.ingest, add_article; rewrite add_article_try_eq; cbv zeta;
  rewrite Hscan; vm_compute; reflexivity.

Lemma scan_d_on_a :
  scan_existing (get_embedding (content Demo.article_d))
    (filter unique (articles Demo.db_a)) = (true, Some 1%Z).
Proof.
  refine (scan_existing_first_match _ [] Demo.row_a [] _ _).
  - intros x [].
  - exact similarity_d_a.
Qed.

Lemma scan_b_on_a :
  scan_existing (get_embedding (content Demo.article_b))
    (filter unique (articles Demo.db_a)) = (false, None).
Proof.
  refine (scan_existing_no_match _ [Demo.row_a] _).
  intros x [<-|[]]; exact similarity_b_a.
Qed.

Lemma scan_d_on_abc :
  scan_existing (get_embedding (content Demo.article_d))
    (filter unique (articles Demo.db_abc)) = (true, Some 1%Z).
Proof.
  refine (scan_existing_first_match _ [] Demo.row_a [Demo.row_b; Demo.row_c] _ _).
  - intros x [].
  - exact similarity_d_a.
Qed.

Lemma scan_x_on_a :
  scan_existing (get_embedding (content Demo.article_x))
    (filter unique (articles Demo.db_a)) = (false, None).
Proof. exact (scan_existing_zero 384 _). Qed.

Lemma run_a :
  Demo.ingest Demo.article_a empty_database
  = (Demo.db_a, Returned (Demo.reply_of 1 Demo.article_a false None)).
Proof. vm_compute; reflexivity. Qed.

Lemma run_d_on_a :
  Demo.ingest Demo.article_d Demo.db_a
  = (Demo.db_ad, Returned (Demo.reply_of 2 Demo.article_d true (Some 1%Z))).
Proof. run_after scan_d_on_a. Qed.

Lemma run_d_on_abc :
  Demo.ingest Demo.article_d Demo.db_abc
  = (Demo.db_abcd, Returned (Demo.reply_of 4 Demo.article_d true (Some 1%Z))).
Proof. run_after scan_d_on_abc. Qed.

Lemma run_x_on_a :
  Demo.ingest Demo.article_x Demo.db_a
  = (Demo.db_ax, Returned (Demo.reply_of 2 Demo.article_x false None)).
Proof. run_after scan_x_on_a. Qed.

Lemma scan_c_on_ab :
  scan_existing (get_embedding (content Demo.article_c))
    (filter unique (articles Demo.db_ab)) = (false, None).
Proof.
  refine (scan_existing_no_match _ [Demo.row_a; Demo.row_b] _).
  intros x [<-|[<-|[]]]; [exact similarity_c_a | exact similarity_c_b].
Qed.

Lemma run_b_on_a :
  Demo.ingest Demo.article_b Demo.db_a
  = (Demo.db_ab, Returned (Demo.reply_of 2 Demo.article_b false None)).
Proof. run_after scan_b_on_a. Qed.

Lemma run_c_on_ab :
  Demo.ingest Demo.article_c Demo.db_ab
  = (Demo.db_abc, Returned (Demo.reply_of 3 Demo.article_c false None)).
Proof. run_after scan_c_on_ab. Qed.

(** A, B and C, posted in that order to an empty database, are all
    accepted as non-duplicates. *)
Lemma corpus_abc_reachable :
  fst (Demo.ingest Demo.article_c
         (fst (Demo.ingest Demo.article_b
                 (fst (Demo.ingest Demo.article_a empty_database)))))
  = Demo.db_abc.
Proof. rewrite run_a; cbn [fst]; rewrite run_b_on_a; cbn [fst];
       rewrite run_c_on_ab; reflexivity. Qed.

(** With an encoder that works on X, the article is flagged as a
    duplicate of A. *)
Lemma run_x_on_a_encoded :
  Demo.ingest_x Demo.article_x Demo.db_a
  = (Demo.db_ax_dup,
     Returned (Demo.reply_of 2 Demo.article_x true (Some 1%Z))).
Proof.
  unfold Demo.ingest_x, add_article.
  rewrite (@add_article_try_eq _ _ Demo.encoder_x); cbv zeta.
  change (@get_embedding _ Demo.encoder_x (content Demo.article_x))
    with (get_embedding (content Demo.article_d)).
  rewrite scan_d_on_a; vm_compute; reflexivity.
Qed.

Lemma run_x_taken_on_a :
  Demo.ingest Demo.article_x_taken Demo.db_a
  = (Demo.db_a, HTTPException 500 IntegrityError).
Proof.
  unfold Demo.ingest, add_article; rewrite add_article_try_eq; cbv zeta.
  rewrite add_article_store_conflict; reflexivity.
Qed.

End DemoRuns.

(* ================================================================== *)
(** * The bulk loader on a duplicate *)
(* ================================================================== *)

Section LoaderFacts.

Context `{Pickle} `{!Encoder} `{JsonLib} `{Groq}.

Lemma scan_processed_first_match (embedding : ndarray)
  (pid : Z) (p_emb : ndarray) (rest : list (Z * ndarray)) :
  (calculate_similarity embedding p_emb >= 85 / 100)%R ->
  scan_processed embedding ((pid, p_emb) :: rest)
  = (true, Some pid, calculate_similarity embedding p_emb).
Proof.
  intros Hhit; simpl; apply Rgeb_true in Hhit; rewrite Hhit; reflexivity.
Qed.

(** For a duplicate the loader writes the article row and one audit
    record, and no entity or stock-impact row. *)
Lemma load_article_duplicate (article : Article) (db : database)
  (processed : list (Z * ndarray)) (cid : Z) (score : R) :
  scan_processed (get_embedding (content article)) processed
  = (true, Some cid, score) ->
  url_taken (url article) (articles db) = false ->
  load_article article (db, processed)
  = ({| articles :=
          articles db ++
          [ {| a_id := next_rowid db; a_title := title article;
               a_content := content article; a_source := source article;
               a_url := url article;
               a_published_date := published_date article;
               a_embedding :=
                 Some (serialize_embedding (get_embedding (content article)));
               a_is_duplicate := true;
               a_canonical_id := Some cid |} ];
        articles_seq := next_rowid db;
        entities := entities db;
        stock_impacts := stock_impacts db;
        deduplication_records :=
          deduplication_records db ++
          [ {| d_article_id_1 := cid; d_article_id_2 := next_rowid db;
               d_similarity_score := score; d_is_duplicate := true |} ] |},
     processed).
Proof.
  intros Hscan Hfree; unfold load_article, load_article_insert.
  rewrite Hscan; unfold bind, insert_article; rewrite Hfree; reflexivity.
Qed.

End LoaderFacts.

Section DemoClaims.

#[local] Existing Instance Demo.numpy.
#[local] Existing Instance Demo.pickle.
#[local] Existing Instance Demo.encoder.
#[local] Existing Instance Demo.jsonlib.
#[local] Existing Instance Demo.groq.

(** The loader, on the input on which the handler goes wrong: it records
    the duplicate pair and leaves the duplicate without entities. *)
Lemma load_a_then_d :
  Demo.load [Demo.article_a; Demo.article_d] empty_database
  = Demo.db_ad_loaded.
Proof.
  unfold Demo.load, load_mock_data; cbn [fold_left].
  replace (load_article Demo.article_a (empty_database, []))
    with (Demo.db_a, [(1%Z, Demo.vec_a : ndarray)])
    by (vm_compute; reflexivity).
  rewrite (load_article_duplicate Demo.article_d Demo.db_a _ 1%Z
             (@calculate_similarity Demo.numpy Demo.vec_d Demo.vec_a)).
  - reflexivity.
  - exact (@scan_processed_first_match Demo.numpy
             Demo.vec_d 1%Z Demo.vec_a [] similarity_d_a).
  - reflexivity.
Qed.

(** C1, on the handler.  Article D, posted after A, is flagged as a
    duplicate of A, and the call still stores two entity rows and one
    stock-impact row for D; the bulk loader stores none for it. *)
Theorem add_article_enriches_duplicate :
  exists db' body,
    Demo.ingest Demo.article_d Demo.db_a = (db', Returned body) /\
    resp_is_duplicate body = true /\
    resp_canonical_id body = Some 1%Z /\
    filter (fun e => Z.eqb (e_article_id e) (resp_id body)) (entities db')
    = Demo.entity_rows 2 /\
    filter (fun i => Z.eqb (s_article_id i) (resp_id body)) (stock_impacts db')
    = Demo.impact_rows 2 /\
    filter (fun e => Z.eqb (e_article_id e) 2)
      (entities (Demo.load [Demo.article_a; Demo.article_d] empty_database))
    = [].
Proof.
  exists Demo.db_ad, (Demo.reply_of 2 Demo.article_d true (Some 1%Z)).
  split; [exact run_d_on_a|].
  rewrite load_a_then_d; repeat split.
Qed.

(** The run behind C2: the handler flags D and leaves
    [deduplication_records] empty, the loader writes the pair (1, 2). *)
Lemma add_article_never_records_duplicates_witness :
  (Demo.ingest Demo.article_d Demo.db_a
   = (Demo.db_ad, Returned (Demo.reply_of 2 Demo.article_d true (Some 1%Z)))) /\
  resp_is_duplicate (Demo.reply_of 2 Demo.article_d true (Some 1%Z)) = true /\
  deduplication_records Demo.db_ad = deduplication_records Demo.db_a.
Proof.
  split; [exact run_d_on_a|]; split; [reflexivity|].
  exact (add_article_never_records_duplicates Demo.article_d Demo.db_a
           Demo.db_ad _ run_d_on_a eq_refl).
Defined.

Lemma loader_records_duplicate :
  map (fun r => (d_article_id_1 r, d_article_id_2 r, d_is_duplicate r))
    (deduplication_records
       (Demo.load [Demo.article_a; Demo.article_d] empty_database))
  = [(1%Z, 2%Z, true)].
Proof. rewrite load_a_then_d; reflexivity. Qed.

(** The scenario of C3: A, B and C are stored in that order, each
    reaches the threshold against D, B is the closest, and D gets A. *)
Lemma add_article_first_match_witness :
  (calculate_similarity (Demo.vec_d : ndarray) Demo.vec_a >= 85 / 100)%R /\
  (calculate_similarity (Demo.vec_d : ndarray) Demo.vec_b >= 85 / 100)%R /\
  (calculate_similarity (Demo.vec_d : ndarray) Demo.vec_c >= 85 / 100)%R /\
  (calculate_similarity (Demo.vec_d : ndarray) Demo.vec_a
   < calculate_similarity (Demo.vec_d : ndarray) Demo.vec_b)%R /\
  Demo.ingest Demo.article_d Demo.db_abc
  = (Demo.db_abcd, Returned (Demo.reply_of 4 Demo.article_d true (Some 1%Z))) /\
  exists row,
    articles Demo.db_abcd = articles Demo.db_abc ++ [row] /\
    a_id row = 4%Z /\
    a_is_duplicate row = true /\
    a_canonical_id row = Some (a_id Demo.row_a).
Proof.
  split; [exact similarity_d_a|]; split; [exact similarity_d_b|].
  split; [exact similarity_d_c|]; split; [exact similarity_d_b_best|].
  split; [exact run_d_on_abc|].
  exact (proj2 (proj2 (proj2
    (add_article_first_match Demo.article_d Demo.db_abc Demo.db_abcd
       (Demo.reply_of 4 Demo.article_d true (Some 1%Z))
       [] Demo.row_a [Demo.row_b; Demo.row_c]
       eq_refl (fun x (Hx : In x []) => match Hx with end)
       similarity_d_a run_d_on_abc)))).
Defined.

(** [add_article_embedding_fallback] on the article the encoder raises
    on.  Under a new url the call returns with the zero array stored and
    no duplicate flagged, where an encoder that works on the text flags a
    duplicate of A; under the url of A the call ends in the integrity
    error, as it does with the encoder that works. *)
Lemma add_article_embedding_fallback_witness :
  model_encode (content Demo.article_x) = None /\
  Demo.ingest_x Demo.article_x Demo.db_a
  = (Demo.db_ax_dup,
     Returned (Demo.reply_of 2 Demo.article_x true (Some 1%Z))) /\
  Demo.ingest Demo.article_x Demo.db_a
  = (Demo.db_ax, Returned (Demo.reply_of 2 Demo.article_x false None)) /\
  (exists db1,
     Demo.ingest Demo.article_x Demo.db_a
     = (db1, Returned (Demo.reply_of 2 Demo.article_x false None)) /\
     articles db1
     = articles Demo.db_a
       ++ [Demo.row_of 2 Demo.article_x (repeat Byte.x00 384) false None]) /\
  snd (Demo.ingest Demo.article_x_taken Demo.db_a)
  = HTTPException 500 IntegrityError /\
  snd (Demo.ingest_x Demo.article_x_taken Demo.db_a)
  = HTTPException 500 IntegrityError.
Proof.
  split; [reflexivity|]; split; [exact run_x_on_a_encoded|].
  split; [exact run_x_on_a|].
  assert (Hraised : snd (Demo.ingest Demo.article_x_taken Demo.db_a)
                    = HTTPException 500 IntegrityError)
    by (rewrite run_x_taken_on_a; reflexivity).
  split; [|split; [exact Hraised|]].
  - destruct (proj1 (proj2 (proj2 (proj2
      (@add_article_embedding_fallback Demo.numpy Demo.pickle Demo.encoder
         Demo.jsonlib Demo.groq Demo.article_x Demo.db_a eq_refl))))
      Demo.encoder_x _ _ run_x_on_a_encoded) as (db1 & Hrun & _ & Hrows).
    exists db1; split; [exact Hrun | exact Hrows].
  - exact (proj2 (proj2 (proj2 (proj2
      (@add_article_embedding_fallback Demo.numpy Demo.pickle Demo.encoder
         Demo.jsonlib Demo.groq Demo.article_x_taken Demo.db_a eq_refl))))
      Demo.encoder_x _ _ Hraised).
Defined.

(** [add_article_url_conflict] on article A posted a second time. *)
Lemma add_article_url_conflict_witness :
  url Demo.article_a = Some "https://example.com/a"%string /\
  In Demo.row_a (articles Demo.db_a) /\
  a_url Demo.row_a = Some "https://example.com/a"%string /\
  Demo.ingest Demo.article_a Demo.db_a
  = (Demo.db_a, HTTPException 500 IntegrityError).
Proof.
  split; [reflexivity|]; split; [left; reflexivity|]; split; [reflexivity|].
  exact (add_article_url_conflict Demo.article_a Demo.db_a
           "https://example.com/a"%string Demo.row_a
           eq_refl (or_introl eq_refl) eq_refl).
Defined.

(** [embedding_codec_roundtrip] on one array and on one byte that is not
    a pickle. *)
Lemma embedding_codec_roundtrip_witness :
  pickle_loads [Byte.x00] = None /\
  deserialize_embedding (Some (serialize_embedding (Demo.vec_a : ndarray)))
  = Demo.vec_a /\
  deserialize_embedding (Some [Byte.x00]) = np_zeros 384.
Proof.
  destruct embedding_codec_roundtrip as [Hround Hcorrupt].
  split; [reflexivity|]; split; [apply Hround|].
  exact (proj1 (Hcorrupt [Byte.x00] eq_refl)).
Defined.

(** The scores of the query D against the stored A, B and C: B first,
    then A, then C. *)
Lemma similarity_d_order :
  (calculate_similarity (Demo.vec_d : ndarray) Demo.vec_c
   < calculate_similarity (Demo.vec_d : ndarray) Demo.vec_a)%R /\
  (calculate_similarity (Demo.vec_d : ndarray) Demo.vec_a
   < calculate_similarity (Demo.vec_d : ndarray) Demo.vec_b)%R.
Proof.
  split; [|exact similarity_d_b_best].
  apply Rlt_le_trans with (9 / 10)%R.
  - unfold calculate_similarity, Sklearn.cosine_similarity.
    rewrite values_vec_d, values_vec_c; cbn [List.length Nat.eqb andb negb].
    apply SklearnFacts.cosine_lt; cbn [Sklearn.dot]; lra.
  - unfold calculate_similarity, Sklearn.cosine_similarity.
    rewrite values_vec_d, values_vec_a; cbn [List.length Nat.eqb andb negb].
    apply SklearnFacts.cosine_ge; cbn [Sklearn.dot]; lra.
Qed.

(** The search for the text of D over the stored A, B and C with
    [top_k = 2]: B, then A. *)
Lemma search_d_on_abc :
  Demo.search Demo.text_d (search_items Demo.db_abc) 2
  = [ (Demo.item_b, calculate_similarity (Demo.vec_d : ndarray) Demo.vec_b);
      (Demo.item_a, calculate_similarity (Demo.vec_d : ndarray) Demo.vec_a) ].
Proof.
  destruct similarity_d_order as [Hca Hab].
  unfold Demo.search, semantic_search_articles.
  rewrite score_articles_spec.
  change (get_embedding Demo.text_d) with (Demo.vec_d : ndarray).
  change (filter has_embedding (search_items Demo.db_abc))
    with [Demo.item_a; Demo.item_b; Demo.item_c].
  cbn [map].
  change (deserialize_embedding (item_embedding Demo.item_a))
    with (Demo.vec_a : ndarray).
  change (deserialize_embedding (item_embedding Demo.item_b))
    with (Demo.vec_b : ndarray).
  change (deserialize_embedding (item_embedding Demo.item_c))
    with (Demo.vec_c : ndarray).
  unfold sort_desc; cbn [fold_right insert_desc snd].
  rewrite (proj2 (Rgeb_true _ _)
             (Rle_ge _ _ (Rlt_le _ _ (Rlt_trans _ _ _ Hca Hab)))).
  cbn [insert_desc snd]; rewrite (proj2 (Rgeb_false _ _) Hab).
  rewrite (proj2 (Rgeb_true _ _) (Rle_ge _ _ (Rlt_le _ _ Hca))).
  reflexivity.
Qed.

(** [semantic_search_ranked] on the stored A, B and C, asked for the two
    articles closest to the text of D: the result is B, then A, and C,
    the farthest, is cut. *)
Lemma semantic_search_ranked_witness :
  Forall (fun a => has_embedding a = true) (search_items Demo.db_abc) /\
  (0 <= 2)%Z /\
  Demo.search Demo.text_d (search_items Demo.db_abc) 2
  = [ (Demo.item_b, calculate_similarity (Demo.vec_d : ndarray) Demo.vec_b);
      (Demo.item_a, calculate_similarity (Demo.vec_d : ndarray) Demo.vec_a) ] /\
  exists ranked : list (search_item * R),
    Permutation
      (map (fun a => (a, calculate_similarity (get_embedding Demo.text_d)
                           (deserialize_embedding (item_embedding a))))
           (search_items Demo.db_abc))
      ranked /\
    StronglySorted (fun x y => (snd x >= snd y)%R) ranked /\
    Demo.search Demo.text_d (search_items Demo.db_abc) 2 = firstn 2 ranked.
Proof.
  assert (Hall : Forall (fun a => has_embedding a = true)
                   (search_items Demo.db_abc))
    by (repeat constructor).
  split; [exact Hall|]; split; [lia|]; split; [exact search_d_on_abc|].
  destruct (semantic_search_ranked Demo.text_d (search_items Demo.db_abc) 2
              Hall)
    as (ranked & Hperm & Hsorted & Hfirst & _).
  exists ranked; split; [exact Hperm|]; split; [exact Hsorted|].
  apply Hfirst; lia.
Defined.

End DemoClaims.

(* ================================================================== *)
(** * Further properties of the scorer and of the two searches *)
(* ================================================================== *)

Section ScorerMore.

Context `{Numpy}.


(** X1.  The similarity does not depend on the order of its two
    arguments. *)
Theorem calculate_similarity_symmetric (a b : ndarray) :
  calculate_similarity a b = calculate_similarity b a.
Proof.
  unfold calculate_similarity, Sklearn.cosine_similarity.
  rewrite (Nat.eqb_sym (List.length (values b))).
  destruct (Nat.eqb (List.length (values a)) (List.length (values b)))
    eqn:Hlen; [|reflexivity].
  apply Nat.eqb_eq in Hlen; rewrite Hlen, SklearnFacts.dot_comm.
  reflexivity.
Qed.

(** X3.  Lowering the threshold never turns a duplicate into a
    non-duplicate, and the score does not depend on the threshold. *)
Theorem detect_duplicate_articles_monotone (a b : ndarray) (t1 t2 : R) :
  (t2 <= t1)%R ->
  fst (detect_duplicate_articles a b (Some t1)) = true ->
  fst (detect_duplicate_articles a b (Some t2)) = true /\
  snd (detect_duplicate_articles a b (Some t2))
  = snd (detect_duplicate_articles a b (Some t1)).
Proof.
  unfold detect_duplicate_articles; cbn [fst snd]; intros Hle Hdup.
  split; [|reflexivity].
  apply Rgeb_true in Hdup; apply Rgeb_true; lra.
Qed.

Lemma collect_similar_spec (q : ndarray)
  (article_embeddings : list (Z * ndarray)) (t : R) :
  collect_similar q article_embeddings t
  = filter (fun p => Rgeb (snd p) t)
      (map (fun p => (fst p, calculate_similarity q (snd p)))
           article_embeddings).
Proof.
  induction article_embeddings as [|[i e] l IH]; simpl; [reflexivity|].
  rewrite IH; reflexivity.
Qed.

(** X4.  [find_similar_articles] returns, in descending order of
    similarity, exactly the (id, similarity) pairs of the input whose
    similarity reaches the threshold; the threshold left out is 0.7. *)
Theorem find_similar_articles_spec (q : ndarray)
  (article_embeddings : list (Z * ndarray)) (t : R) :
  Permutation
    (filter (fun p => Rgeb (snd p) t)
       (map (fun p => (fst p, calculate_similarity q (snd p)))
            article_embeddings))
    (find_similar_articles q article_embeddings (Some t)) /\
  StronglySorted (fun x y => (snd x >= snd y)%R)
    (find_similar_articles q article_embeddings (Some t)) /\
  (forall i s, In (i, s) (find_similar_articles q article_embeddings (Some t)) ->
     (s >= t)%R /\
     exists e, In (i, e) article_embeddings /\ s = calculate_similarity q e) /\
  find_similar_articles q article_embeddings None
  = find_similar_articles q article_embeddings (Some (7 / 10)%R).
Proof.
  unfold find_similar_articles; rewrite collect_similar_spec.
  split; [apply sort_desc_perm|].
  split; [apply (sort_desc_sorted snd)|].
  split; [|reflexivity].
  intros i s Hin.
  apply (Permutation_in _ (Permutation_sym (sort_desc_perm snd _))) in Hin.
  apply filter_In in Hin as [Hin Hge]; cbn [snd] in Hge.
  apply Rgeb_true in Hge; split; [exact Hge|].
  apply in_map_iff in Hin as ([i' e] & Heq & Hin).
  cbn [fst snd] in Heq; injection Heq as -> <-.
  exists e; split; [exact Hin | reflexivity].
Qed.

End ScorerMore.

Lemma firstn_incl_in {A : Type} (n : nat) (l : list A) (x : A) :
  In x (firstn n l) -> In x l.
Proof.
  intros Hin; rewrite <- (firstn_skipn n l); apply in_or_app; left; exact Hin.
Qed.

Lemma slice_to_incl {A : Type} (k : Z) (l : list A) (x : A) :
  In x (slice_to k l) -> In x l.
Proof.
  unfold slice_to; destruct (0 <=? k)%Z; apply firstn_incl_in.
Qed.

Lemma slice_to_length {A : Type} (k : Z) (l : list A) :
  (0 <= k)%Z -> (List.length (slice_to k l) <= Z.to_nat k)%nat.
Proof.
  intros Hk; rewrite slice_to_firstn by assumption; apply firstn_le_length.
Qed.

Lemma sort_desc_constant {A : Type} (key : A -> R) (c : R) (l : list A) :
  Forall (fun x => key x = c) l -> sort_desc key l = l.
Proof.
  induction 1 as [|x l Hx Hl IH]; [reflexivity|].
  cbn [sort_desc fold_right].
  change (fold_right (insert_desc key) [] l) with (sort_desc key l).
  rewrite IH; destruct Hl as [|y l Hy Hl]; [reflexivity|].
  cbn [insert_desc]; rewrite Hx, Hy.
  assert (Hcc : Rgeb c c = true) by (apply Rgeb_true; lra).
  rewrite Hcc; reflexivity.
Qed.

Section SearchMore.

Context `{Pickle} `{!Encoder}.

(** X5.  [semantic_search_articles] never invents an entry and never
    returns more than asked: each result is one of the given articles,
    carries an embedding and is paired with its similarity to the query,
    and for a non-negative [top_k] there are at most [top_k] results. *)
Theorem semantic_search_articles_bounded
  (query : string) (articles : list search_item) (top_k : Z) :
  (0 <= top_k)%Z ->
  (List.length (semantic_search_articles query articles top_k)
   <= Z.to_nat top_k)%nat /\
  (List.length (semantic_search_articles query articles top_k)
   <= List.length articles)%nat /\
  forall item s,
    In (item, s) (semantic_search_articles query articles top_k) ->
    In item articles /\ has_embedding item = true /\
    s = calculate_similarity (get_embedding query)
          (deserialize_embedding (item_embedding item)).
Proof.
  intros Hk; unfold semantic_search_articles; rewrite score_articles_spec.
  set (scored := map _ (filter has_embedding articles)).
  split; [apply slice_to_length, Hk|]; split.
  - rewrite slice_to_firstn by assumption.
    rewrite length_firstn, sort_desc_length.
    unfold scored; rewrite length_map.
    pose proof (filter_length_le has_embedding articles); lia.
  - intros item s Hin; apply slice_to_incl in Hin.
    apply (Permutation_in _ (Permutation_sym (sort_desc_perm snd _))) in Hin.
    unfold scored in Hin; apply in_map_iff in Hin as (a & Heq & Hin).
    injection Heq as -> <-; apply filter_In in Hin as [Hin Hemb].
    repeat split; assumption.
Qed.

(** X6.  Ties keep the input order: when [top_k] covers the whole
    collection, the results that share one score appear in the order in
    which their articles were given. *)
Theorem semantic_search_articles_stable
  (query : string) (articles : list search_item) (top_k : Z) (k : R) :
  (Z.of_nat (List.length articles) <= top_k)%Z ->
  let same := fun x : search_item * R =>
                if Req_dec_T (snd x) k then true else false in
  filter same (semantic_search_articles query articles top_k)
  = filter same
      (map (fun a => (a, calculate_similarity (get_embedding query)
                           (deserialize_embedding (item_embedding a))))
           (filter has_embedding articles)).
Proof.
  intros Hk same; unfold semantic_search_articles.
  rewrite score_articles_spec.
  set (scored := map _ (filter has_embedding articles)).
  rewrite slice_to_all.
  - apply (sort_desc_stable snd k).
  - rewrite sort_desc_length; unfold scored; rewrite length_map.
    pose proof (filter_length_le has_embedding articles); lia.
Qed.

(** X7.  When the encoder raises on the query, the search does not fail:
    it returns the first [top_k] articles that carry an embedding, in the
    order given, each with score 0. *)
Theorem semantic_search_articles_query_fallback
  (query : string) (articles : list search_item) (top_k : Z) :
  model_encode query = None ->
  (0 <= top_k)%Z ->
  semantic_search_articles query articles top_k
  = firstn (Z.to_nat top_k)
      (map (fun a => (a, 0%R)) (filter has_embedding articles)).
Proof.
  intros Hfail Hk; unfold semantic_search_articles.
  rewrite score_articles_spec, slice_to_firstn by assumption.
  destruct (get_embedding_fallback _ Hfail) as [-> _].
  assert (Hscores :
    map (fun a => (a, calculate_similarity (np_zeros 384)
                        (deserialize_embedding (item_embedding a))))
        (filter has_embedding articles)
    = map (fun a => (a, 0%R)) (filter has_embedding articles)).
  { apply map_ext; intros a.
    rewrite (calculate_similarity_zero_l _ _ (values_zeros_all_zero 384)).
    reflexivity. }
  rewrite Hscores, (sort_desc_constant snd 0%R); [reflexivity|].
  apply Forall_forall; intros x Hx.
  apply in_map_iff in Hx as (a & <- & _); reflexivity.
Qed.

End SearchMore.

(* ================================================================== *)
(** * Further properties of the ingestion handler *)
(* ================================================================== *)

Lemma NoDup_snoc {A : Type} (l : list A) (x : A) :
  NoDup l -> ~ In x l -> NoDup (l ++ [x]).
Proof.
  induction 1 as [|y l Hy Hl IH]; simpl; intros Hx.
  - constructor; [intros [] | constructor].
  - constructor.
    + intros Hin; apply in_app_or in Hin as [Hin|[<-|[]]]; [contradiction|].
      apply Hx; left; reflexivity.
    + apply IH; intros Hin; apply Hx; right; exact Hin.
Qed.

Lemma max_rowid_ge (rows : list article_row) (r : article_row) :
  In r rows -> (a_id r <= max_rowid rows)%Z.
Proof.
  unfold max_rowid; induction rows as [|x rows IH]; simpl; [intros []|].
  intros [<-|Hin]; [lia | specialize (IH Hin); lia].
Qed.

Lemma stored_urls_snoc (rows : list article_row) (r : article_row) :
  stored_urls (rows ++ [r])
  = stored_urls rows ++ match a_url r with Some u => [u] | None => [] end.
Proof.
  unfold stored_urls; rewrite flat_map_app; simpl; rewrite app_nil_r.
  reflexivity.
Qed.

Lemma url_taken_stored (u : string) (rows : list article_row) :
  url_taken (Some u) rows = true <-> In u (stored_urls rows).
Proof.
  unfold url_taken, stored_urls; rewrite existsb_exists, in_flat_map.
  split; intros (r & Hin & Hr); exists r; split; try assumption.
  - destruct (a_url r) as [u'|]; [|discriminate].
    apply String.eqb_eq in Hr as ->; left; reflexivity.
  - destruct (a_url r) as [u'|]; [|destruct Hr].
    destruct Hr as [->|[]]; apply String.eqb_refl.
Qed.

Section ScanFacts.

Context `{Pickle}.

Lemma scan_existing_result (embedding : ndarray) (rows : list article_row) :
  (fst (scan_existing embedding rows) = true <->
   snd (scan_existing embedding rows) <> None) /\
  forall c, snd (scan_existing embedding rows) = Some c ->
    exists r, In r rows /\ a_id r = c /\
      (calculate_similarity embedding (deserialize_embedding (a_embedding r))
       >= 85 / 100)%R.
Proof.
  induction rows as [|x rows [IHflag IHhit]]; simpl.
  - split; [split; [discriminate | intros Hn; contradiction Hn; reflexivity]|].
    intros c Hc; discriminate.
  - destruct (Rgeb _ _) eqn:Hx; cbn [fst snd].
    + split; [split; [discriminate | reflexivity]|].
      intros c Hc; injection Hc as <-.
      exists x; split; [left; reflexivity|].
      split; [reflexivity | apply Rgeb_true, Hx].
    + split; [exact IHflag|].
      intros c Hc; destruct (IHhit c Hc) as (r & Hin & Hr).
      exists r; split; [right; exact Hin | exact Hr].
Qed.

(** X8.  A stored row whose embedding column is NULL, holds bytes that
    [pickle.loads] rejects, or holds an array of zeros is invisible to the
    duplicate scan: the scan gives the same verdict without it, so such a
    row is never chosen as canonical. *)
Theorem scan_existing_skips_blank_rows (embedding : ndarray)
  (before : list article_row) (r : article_row) (after : list article_row) :
  a_embedding r = None \/
  (exists b, a_embedding r = Some b /\ pickle_loads b = None) \/
  Forall (eq 0%R) (values (deserialize_embedding (a_embedding r))) ->
  scan_existing embedding (before ++ r :: after)
  = scan_existing embedding (before ++ after).
Proof.
  intros Hblank.
  assert (Hzero : Forall (eq 0%R)
                    (values (deserialize_embedding (a_embedding r)))).
  { destruct Hblank as [Hnull|[(b & Hb & Hbad)|Hz]]; [| |exact Hz].
    - rewrite Hnull; apply values_zeros_all_zero.
    - rewrite Hb; unfold deserialize_embedding; rewrite Hbad.
      apply values_zeros_all_zero. }
  induction before as [|x before IH]; simpl.
  - rewrite (calculate_similarity_zero_r _ _ Hzero).
    assert (Hlow : Rgeb 0 (85 / 100) = false) by (apply Rgeb_false; lra).
    rewrite Hlow; reflexivity.
  - rewrite IH; reflexivity.
Qed.

End ScanFacts.

Section IngestionMore.

Context `{Pickle} `{!Encoder} `{JsonLib} `{Groq}.

Local Notation "'unique'" :=
  (fun r : article_row => negb (a_is_duplicate r)).

(** Rows are only appended, and the new ones belong to article [i]. *)
Let grows (i : Z) (db db' : database) : Prop :=
  exists es ss,
    entities db' = entities db ++ es /\
    Forall (fun e => e_article_id e = i) es /\
    stock_impacts db' = stock_impacts db ++ ss /\
    Forall (fun s => s_article_id s = i) ss.

Lemma grows_refl (i : Z) (db : database) : grows i db db.
Proof.
  exists [], []; rewrite !app_nil_r; repeat split; constructor.
Qed.

Lemma grows_trans (i : Z) (db1 db2 db3 : database) :
  grows i db1 db2 -> grows i db2 db3 -> grows i db1 db3.
Proof.
  intros (es1 & ss1 & He1 & Hf1 & Hs1 & Hg1) (es2 & ss2 & He2 & Hf2 & Hs2 & Hg2).
  exists (es1 ++ es2), (ss1 ++ ss2).
  rewrite He2, He1, Hs2, Hs1, !app_assoc.
  repeat split; apply Forall_app; split; assumption.
Qed.

Lemma bind_grows {A B : Type} (i : Z) (m : M A) (f : A -> M B) :
  (forall db, grows i db (fst (m db))) ->
  (forall a db, grows i db (fst (f a db))) ->
  forall db, grows i db (fst (bind m f db)).
Proof.
  intros Hm Hf db; unfold bind.
  specialize (Hm db); destruct (m db) as [db1 [e|a]]; cbn [fst] in *.
  - exact Hm.
  - apply (grows_trans i db db1); [exact Hm | apply Hf].
Qed.

Lemma for_each_grows {A : Type} (i : Z) (l : list A) (body : A -> M unit) :
  (forall a db, grows i db (fst (body a db))) ->
  forall db, grows i db (fst (for_each l body db)).
Proof.
  intros Hbody; induction l as [|a l IH]; intros db; simpl.
  - apply grows_refl.
  - apply bind_grows; auto.
Qed.

Lemma py_items_grows (i : Z) (v : json) (db : database) :
  grows i db (fst (py_items v db)).
Proof. destruct v; apply grows_refl. Qed.

Lemma py_get_grows (i : Z) (v : json) (k : string) (d : json)
  (db : database) : grows i db (fst (py_get v k d db)).
Proof. destruct v; apply grows_refl. Qed.

Lemma py_iter_grows (i : Z) (v : json) (db : database) :
  grows i db (fst (py_iter v db)).
Proof. destruct v; apply grows_refl. Qed.

Lemma insert_entity_grows (i : Z) (t : json) (k : string) (c : json)
  (db : database) : grows i db (fst (insert_entity i t k c db)).
Proof.
  unfold insert_entity.
  destruct (negb (bindable t)); [apply grows_refl|].
  destruct (is_null t); [apply grows_refl|].
  eexists [_], []; cbn [fst entities stock_impacts e_article_id].
  rewrite app_nil_r; repeat split; repeat constructor.
Qed.

Lemma insert_stock_impact_grows (i : Z) (a b c d : json) (db : database) :
  grows i db (fst (insert_stock_impact i a b c d db)).
Proof.
  unfold insert_stock_impact.
  destruct (first_unbindable _); [apply grows_refl|].
  destruct (is_null a); [apply grows_refl|].
  eexists [], [_]; cbn [fst entities stock_impacts s_article_id].
  rewrite app_nil_r; repeat split; repeat constructor.
Qed.

Lemma enrich_grows (text : string) (i : Z) (db : database) :
  grows i db (fst (enrich text i db)).
Proof.
  unfold enrich, store_entities, store_stock_impacts; revert db.
  apply bind_grows.
  { apply bind_grows; [apply py_items_grows|]; intros items.
    apply for_each_grows; intros [entity_type entities_list].
    apply bind_grows; [apply py_iter_grows|]; intros texts.
    apply for_each_grows; intros t; apply insert_entity_grows. }
  intros _; apply bind_grows; [|intros; apply grows_refl].
  apply bind_grows; [apply py_items_grows|]; intros items.
  apply for_each_grows; intros [entity_type entities_list].
  destruct (is_company_or_sector entity_type); [|intros; apply grows_refl].
  apply bind_grows; [apply py_iter_grows|]; intros texts.
  apply for_each_grows; intros t.
  apply bind_grows; [apply py_get_grows|]; intros stocks.
  apply bind_grows; [apply py_iter_grows|]; intros stock_list.
  apply for_each_grows; intros stock.
  apply bind_grows; [apply py_get_grows|]; intros symbol.
  apply bind_grows; [apply py_get_grows|]; intros impact_type.
  apply bind_grows; [apply py_get_grows|]; intros confidence.
  apply insert_stock_impact_grows.
Qed.

(** X9.  A returned call gives the article an id larger than every id
    in the table and than the AUTOINCREMENT counter, and appends exactly
    one row, which carries that id. *)
Theorem add_article_fresh_id (article : Article) (db db' : database)
  (body : response) :
  add_article article db = (db', Returned body) ->
  (forall r, In r (articles db) -> (a_id r < resp_id body)%Z) /\
  (articles_seq db < resp_id body)%Z /\
  articles_seq db' = resp_id body /\
  exists row, articles db' = articles db ++ [row] /\ a_id row = resp_id body.
Proof.
  intros Hret; apply add_article_returned in Hret; cbv zeta in Hret.
  destruct Hret as (_ & Hcore & Hid & _).
  unfold core in Hcore; injection Hcore as Harticles Hseq _.
  rewrite Hid; unfold next_rowid; repeat split.
  - intros r Hin; apply max_rowid_ge in Hin; lia.
  - lia.
  - exact Hseq.
  - eexists; split; [exact Harticles | reflexivity].
Qed.

(** X10.  In a returned call the duplicate flag is set exactly when a
    canonical id is given, and that id is the id of a stored article that
    is not itself a duplicate, is older than the new one and reaches the
    threshold against it. *)
Theorem add_article_canonical_valid (article : Article) (db db' : database)
  (body : response) :
  add_article article db = (db', Returned body) ->
  (resp_is_duplicate body = true <-> resp_canonical_id body <> None) /\
  forall c, resp_canonical_id body = Some c ->
    exists r, In r (articles db) /\ a_id r = c /\
      a_is_duplicate r = false /\ (c < resp_id body)%Z /\
      (calculate_similarity (get_embedding (content article))
         (deserialize_embedding (a_embedding r)) >= 85 / 100)%R.
Proof.
  intros Hret; apply add_article_returned in Hret; cbv zeta in Hret.
  destruct Hret as (_ & _ & Hid & Hdup & Hcanon & _).
  destruct (scan_existing_result (get_embedding (content article))
              (filter unique (articles db))) as [Hflag Hhit].
  rewrite Hdup, Hcanon; split; [exact Hflag|].
  intros c Hc; destruct (Hhit c Hc) as (r & Hin & Hr & Hsim).
  apply filter_In in Hin as [Hin Hunique].
  exists r; split; [exact Hin|]; split; [exact Hr|].
  split; [destruct (a_is_duplicate r); [discriminate | reflexivity]|].
  split; [|exact Hsim].
  rewrite Hid, <- Hr; unfold next_rowid.
  apply max_rowid_ge in Hin; lia.
Qed.

(** X11.  A returned call leaves every entity and stock-impact row that
    was there in place, and each row it adds to the two tables carries
    the id of the new article. *)
Theorem add_article_owned_rows (article : Article) (db db' : database)
  (body : response) :
  add_article article db = (db', Returned body) ->
  exists es ss,
    entities db' = entities db ++ es /\
    Forall (fun e => e_article_id e = resp_id body) es /\
    stock_impacts db' = stock_impacts db ++ ss /\
    Forall (fun s => s_article_id s = resp_id body) ss.
Proof.
  intros Hret; apply add_article_returned in Hret; cbv zeta in Hret.
  destruct Hret as (_ & _ & Hid & _ & _ & Henrich).
  match type of Henrich with
  | enrich ?t ?i ?d = _ => pose proof (enrich_grows t i d) as Hgrow
  end.
  rewrite Henrich in Hgrow; rewrite Hid; exact Hgrow.
Qed.

End IngestionMore.

Section PostRuns.

Context `{Pickle} `{!Encoder} `{JsonLib} `{Groq}.

Local Notation "'unique'" :=
  (fun r : article_row => negb (a_is_duplicate r)).

(** One call either leaves the database as it was or appends one row. *)
Lemma add_article_step (article : Article) (db : database) :
  fst (add_article article db) = db \/
  exists row,
    articles (fst (add_article article db)) = articles db ++ [row] /\
    a_id row = next_rowid db /\
    a_url row = url article /\
    url_taken (url article) (articles db) = false /\
    a_is_duplicate row
    = fst (scan_existing (get_embedding (content article))
             (filter unique (articles db))) /\
    a_canonical_id row
    = snd (scan_existing (get_embedding (content article))
             (filter unique (articles db))) /\
    deduplication_records (fst (add_article article db))
    = deduplication_records db.
Proof.
  destruct (add_article article db) as [db' [body|status e]] eqn:Hrun.
  - right; apply add_article_returned in Hrun; cbv zeta in Hrun.
    destruct Hrun as (Hfree & Hcore & _).
    unfold core in Hcore; injection Hcore as Harticles _ Hrecords.
    eexists; split; [exact Harticles|].
    cbn [fst a_id a_url a_is_duplicate a_canonical_id]; auto 10.
  - left; apply add_article_raised in Hrun as [-> _]; reflexivity.
Qed.

Lemma post_all_cons (article : Article) (posted : list Article)
  (db : database) :
  post_all (article :: posted) db
  = post_all posted (fst (add_article article db)).
Proof. reflexivity. Qed.

(** X12.  Article ids stay pairwise distinct through any run of
    [POST /articles] calls, whichever of them fail. *)
Theorem post_all_ids_distinct (posted : list Article) (db : database) :
  NoDup (map a_id (articles db)) ->
  NoDup (map a_id (articles (post_all posted db))).
Proof.
  revert db; induction posted as [|article posted IH]; intros db Hids;
    [exact Hids|].
  rewrite post_all_cons; apply IH.
  destruct (add_article_step article db) as [->|(row & Hrows & Hid & _)];
    [exact Hids|].
  rewrite Hrows, map_app; apply NoDup_snoc; [exact Hids|].
  cbn [map]; intros Hin; apply in_map_iff in Hin as (r & Hr & Hin).
  apply max_rowid_ge in Hin; rewrite Hr, Hid in Hin.
  unfold next_rowid in Hin; lia.
Qed.

(** X13.  The urls of the stored articles stay pairwise distinct through
    any run of [POST /articles] calls. *)
Theorem post_all_urls_distinct (posted : list Article) (db : database) :
  NoDup (stored_urls (articles db)) ->
  NoDup (stored_urls (articles (post_all posted db))).
Proof.
  revert db; induction posted as [|article posted IH]; intros db Hurls;
    [exact Hurls|].
  rewrite post_all_cons; apply IH.
  destruct (add_article_step article db)
    as [->|(row & Hrows & _ & Hurl & Hfree & _)]; [exact Hurls|].
  rewrite Hrows, stored_urls_snoc, Hurl.
  destruct (url article) as [u|]; [|rewrite app_nil_r; exact Hurls].
  apply NoDup_snoc; [exact Hurls|].
  intros Hin; apply url_taken_stored in Hin; congruence.
Qed.

(** X14.  Through any run of [POST /articles] calls every duplicate
    keeps pointing to a stored article that is not a duplicate and has a
    smaller id, and every other article has no canonical reference: no
    article is its own canonical, and no chain is longer than one. *)
Theorem post_all_canonical_ok (posted : list Article) (db : database) :
  canonical_ok (articles db) ->
  canonical_ok (articles (post_all posted db)).
Proof.
  revert db; induction posted as [|article posted IH]; intros db Hok;
    [exact Hok|].
  rewrite post_all_cons; apply IH.
  destruct (add_article_step article db)
    as [->|(row & Hrows & Hid & _ & _ & Hdup & Hcanon & _)]; [exact Hok|].
  rewrite Hrows; intros r Hin; apply in_app_or in Hin as [Hin|[<-|[]]].
  - specialize (Hok r Hin); destruct (a_is_duplicate r); [|exact Hok].
    destruct Hok as (c & r0 & Hc & Hin0 & Hrest).
    exists c, r0; split; [exact Hc|].
    split; [apply in_or_app; left; exact Hin0 | exact Hrest].
  - destruct (scan_existing_result (get_embedding (content article))
                (filter unique (articles db))) as [Hflag Hhit].
    rewrite Hdup, Hcanon.
    destruct (scan_existing _ _) as [flag [c|]]; cbn [fst snd] in *.
    + assert (Hset : flag = true) by (apply Hflag; discriminate).
      rewrite Hset; destruct (Hhit c eq_refl) as (r0 & Hin0 & Hr0 & _).
      apply filter_In in Hin0 as [Hin0 Hu].
      exists c, r0; split; [reflexivity|].
      split; [apply in_or_app; left; exact Hin0|].
      split; [exact Hr0|].
      split; [destruct (a_is_duplicate r0); [discriminate | reflexivity]|].
      rewrite Hid, <- Hr0; unfold next_rowid.
      apply max_rowid_ge in Hin0; lia.
    + destruct flag; [|reflexivity].
      exfalso; apply (proj1 Hflag eq_refl); reflexivity.
Qed.

Lemma post_all_records (posted : list Article) (db : database) :
  deduplication_records (post_all posted db) = deduplication_records db.
Proof.
  revert db; induction posted as [|article posted IH]; intros db;
    [reflexivity|].
  rewrite post_all_cons, IH.
  destruct (add_article_step article db) as [->|(row & Hrest)];
    [reflexivity|].
  apply Hrest.
Qed.

End PostRuns.

Section HandlerFacts.

Context `{Pickle} `{!Encoder} `{JsonLib} `{Groq} `{PyFloat}.

(** X15.  On a database filled through [POST /articles] alone,
    [GET /deduplication/stats] reports an average similarity of 0,
    however many of the articles were flagged as duplicates. *)
Theorem deduplication_stats_blind_to_posts (posted : list Article) :
  average_similarity_score
    (deduplication_stats (post_all posted empty_database)) = 0%R.
Proof.
  unfold deduplication_stats; cbn [average_similarity_score].
  rewrite post_all_records; cbn; apply py_round_zero.
Qed.

(** X16.  In the statistics the unique and the duplicate articles add up
    to the total, and on an empty table the rate is 0 and not a division
    by zero. *)
Theorem deduplication_stats_counts (db : database) :
  (unique_articles (deduplication_stats db)
   + duplicate_articles (deduplication_stats db)
   = total_articles (deduplication_stats db))%Z /\
  total_articles (deduplication_stats db)
  = Z.of_nat (List.length (articles db)) /\
  (articles db = [] -> deduplication_rate (deduplication_stats db) = 0%R).
Proof.
  unfold deduplication_stats, sql_count;
    cbn [unique_articles duplicate_articles total_articles deduplication_rate].
  assert (Hall : forall l : list article_row, filter (fun _ => true) l = l).
  { induction l as [|r l IH]; simpl; [reflexivity | rewrite IH; reflexivity]. }
  rewrite Hall; split; [|split]; [|reflexivity|].
  - rewrite <- Nat2Z.inj_add, Nat.add_comm.
    f_equal; apply filter_length.
  - intros ->; cbn; apply py_round_zero.
Qed.

(** X17.  [POST /search] with [top_k >= 1] returns at most [top_k]
    results, reports their number, and every result is a stored article
    that is not flagged as a duplicate, under its stored title. *)
Theorem semantic_search_only_unique (query : string) (top_k : Z)
  (db : database) :
  (1 <= top_k)%Z ->
  search_results_count (semantic_search query top_k db)
  = Z.of_nat (List.length (search_results (semantic_search query top_k db))) /\
  (search_results_count (semantic_search query top_k db) <= top_k)%Z /\
  forall r, In r (search_results (semantic_search query top_k db)) ->
    exists row, In row (articles db) /\ a_id row = sr_id r /\
                a_title row = sr_title r /\ a_is_duplicate row = false.
Proof.
  intros Hk; unfold semantic_search;
    cbn [search_results_count search_results].
  split; [rewrite length_map; reflexivity|]; split.
  - assert (Hlen := slice_to_length top_k
                      (sort_desc snd (score_articles (get_embedding query)
                                        (search_items db)))).
    unfold semantic_search_articles; lia.
  - intros r Hin; apply in_map_iff in Hin as ([item s] & <- & Hin).
    cbn [sr_id sr_title fst].
    unfold semantic_search_articles in Hin; apply slice_to_incl in Hin.
    apply (Permutation_in _ (Permutation_sym (sort_desc_perm snd _))) in Hin.
    rewrite score_articles_spec in Hin.
    apply in_map_iff in Hin as (a & Heq & Hin); injection Heq as -> _.
    apply filter_In in Hin as [Hin _]; unfold search_items in Hin.
    apply in_map_iff in Hin as (row & <- & Hin).
    apply filter_In in Hin as [Hin Hu].
    exists row; cbn [item_id item_title]; repeat split; try assumption.
    destruct (a_is_duplicate row); [discriminate | reflexivity].
Qed.

End HandlerFacts.

Lemma for_each_skip {A : Type} (l1 : list A) (a : A) (l2 : list A)
  (body : A -> M unit) (db : database) :
  (forall d, body a d = (d, inr tt)) ->
  for_each (l1 ++ a :: l2) body db = for_each (l1 ++ l2) body db.
Proof.
  intros Hskip; revert db; induction l1 as [|x l1 IH]; intros db; simpl.
  - unfold bind; rewrite Hskip; reflexivity.
  - unfold bind; destruct (body x db) as [db1 [e|[]]]; [reflexivity|].
    apply IH.
Qed.

Lemma for_each_replace {A : Type} (l1 : list A) (a a' : A) (l2 : list A)
  (body : A -> M unit) (db : database) :
  (forall d, body a d = body a' d) ->
  for_each (l1 ++ a :: l2) body db = for_each (l1 ++ a' :: l2) body db.
Proof.
  intros Hsame; revert db; induction l1 as [|x l1 IH]; intros db; simpl.
  - unfold bind; rewrite Hsame; reflexivity.
  - unfold bind; destruct (body x db) as [db1 [e|[]]]; [reflexivity|].
    apply IH.
Qed.

Section EnrichmentMore.

Context `{Pickle} `{!Encoder} `{JsonLib} `{Groq}.

Local Notation "'unique'" :=
  (fun r : article_row => negb (a_is_duplicate r)).

Lemma insert_entity_texts (i : Z) (k : string) (ts : list json)
  (db : database) :
  Forall (fun t => bindable t = true /\ is_null t = false) ts ->
  for_each ts (fun t => insert_entity i t k (JNum "1.0")) db
  = ({| articles := articles db;
        articles_seq := articles_seq db;
        entities :=
          entities db ++
          map (fun t => {| e_article_id := i; e_entity_text := t;
                           e_entity_type := k;
                           e_confidence := JNum "1.0" |}) ts;
        stock_impacts := stock_impacts db;
        deduplication_records := deduplication_records db |}, inr tt).
Proof.
  intros Hts; revert db; induction Hts as [|t ts [Hb Hn] Hts IH]; intros db.
  - destruct db; cbn; rewrite app_nil_r; reflexivity.
  - cbn [for_each]; unfold bind at 1, insert_entity at 1.
    rewrite Hb, Hn; cbn [negb]; rewrite IH; cbn.
    rewrite <- app_assoc; reflexivity.
Qed.

(** An entity that is an integer wider than 64 bits stops the first loop
    of the handler with the overflow error of the binding; the rows
    written before it are those of the open transaction. *)
Lemma store_entities_overflow (i : Z) (k : string) (lexeme : string)
  (z : Z) (db : database) :
  lexeme_int lexeme = Some z ->
  fits_int64 z = false ->
  store_entities i (JObj [(k, JArr [JNum lexeme])]) db
  = (db, inl OverflowError).
Proof.
  intros Hint Hwide.
  unfold store_entities, bind, py_items, py_iter, ret; cbn [for_each].
  unfold bind, insert_entity, bindable; rewrite Hint, Hwide; reflexivity.
Qed.

(** X18.  For an extraction result that is a dictionary of lists of
    values that SQLite binds and that are not NULL (strings, booleans,
    floats and the integers of 64 bits), the first loop of the handler
    raises nothing and appends one entity row per listed value, in the
    order of the dictionary and of each list, with the key as type and
    confidence 1.0; no other table changes. *)
Theorem store_entities_rows (i : Z) (items : list (string * json))
  (db : database) :
  (forall k v, In (k, v) items ->
     exists ts, v = JArr ts /\
       Forall (fun t => bindable t = true /\ is_null t = false) ts) ->
  store_entities i (JObj items) db
  = ({| articles := articles db;
        articles_seq := articles_seq db;
        entities :=
          entities db ++
          flat_map (fun kv =>
                      map (fun t => {| e_article_id := i; e_entity_text := t;
                                       e_entity_type := fst kv;
                                       e_confidence := JNum "1.0" |})
                          (match snd kv with JArr ts => ts | _ => [] end))
                   items;
        stock_impacts := stock_impacts db;
        deduplication_records := deduplication_records db |}, inr tt).
Proof.
  intros Hshape; unfold store_entities, bind at 1, py_items, ret.
  revert db; induction items as [|[k v] items IH]; intros db.
  - destruct db; cbn; rewrite app_nil_r; reflexivity.
  - destruct (Hshape k v (or_introl eq_refl)) as (ts & -> & Hts).
    specialize (IH (fun k' v' Hin => Hshape k' v' (or_intror Hin))).
    cbn [for_each]; unfold bind at 1 2, py_iter, ret.
    rewrite (insert_entity_texts i k ts db Hts), IH.
    cbn; rewrite <- app_assoc; reflexivity.
Qed.

(** X19.  An entity whose stock-impact call raises adds no row and does
    not stop the loop: the second loop of the handler does on the whole
    list what it does on the list without that entity. *)
Theorem store_stock_impacts_isolates_failure (i : Z) (text : string)
  (items1 : list (string * json)) (k : string) (before : list json)
  (entity : json) (after : list json) (items2 : list (string * json))
  (db : database) :
  complete_stock_impact text entity = None ->
  store_stock_impacts i text
    (JObj (items1 ++ (k, JArr (before ++ entity :: after)) :: items2)) db
  = store_stock_impacts i text
      (JObj (items1 ++ (k, JArr (before ++ after)) :: items2)) db.
Proof.
  intros Hdown; unfold store_stock_impacts, bind at 1 3, py_items, ret.
  apply for_each_replace; intros d.
  destruct (is_company_or_sector k); [|reflexivity].
  unfold bind at 1 6, py_iter, ret.
  apply for_each_skip; intros d'.
  unfold map_stock_impact; rewrite Hdown; reflexivity.
Qed.

(** X20.  With the encoder and the language model both down, a call
    under a url that is not stored yet still returns: it appends one
    article row holding the serialized zero array, flags no duplicate,
    answers with the empty entity lists and the neutral sentiment, and
    writes no entity and no stock-impact row. *)
Theorem add_article_all_collaborators_down (article : Article)
  (db : database) :
  model_encode (content article) = None ->
  complete_entities (content article) = None ->
  complete_sentiment (content article) = None ->
  url_taken (url article) (articles db) = false ->
  add_article article db
  = (add_row db
       {| a_id := next_rowid db; a_title := title article;
          a_content := content article; a_source := source article;
          a_url := url article;
          a_published_date := published_date article;
          a_embedding := Some (serialize_embedding (np_zeros 384));
          a_is_duplicate := false; a_canonical_id := None |},
     Returned
       {| resp_id := next_rowid db; resp_title := title article;
          resp_is_duplicate := false; resp_canonical_id := None;
          resp_entities := empty_entities;
          resp_sentiment := neutral_sentiment;
          resp_message := "Article added successfully" |}).
Proof.
  intros Hencoder Hentities Hsentiment Hfree.
  unfold add_article; rewrite add_article_try_eq; cbv zeta.
  destruct (get_embedding_fallback _ Hencoder) as [-> _].
  rewrite scan_existing_zero; cbn [fst snd].
  rewrite add_article_store_fresh by assumption; cbv zeta.
  rewrite enrich_defaults by assumption.
  unfold analyze_sentiment; rewrite Hsentiment; reflexivity.
Qed.


End EnrichmentMore.

(* ================================================================== *)
(** * Further properties of the bulk loader *)
(* ================================================================== *)

Section LoaderMore.

Context `{Pickle} `{!Encoder} `{JsonLib} `{Groq}.

Lemma scan_processed_match (embedding : ndarray)
  (before : list (Z * ndarray)) (pid : Z) (p_emb : ndarray)
  (after : list (Z * ndarray)) :
  (forall q, In q before ->
     (calculate_similarity embedding (snd q) < 85 / 100)%R) ->
  (calculate_similarity embedding p_emb >= 85 / 100)%R ->
  scan_processed embedding (before ++ (pid, p_emb) :: after)
  = (true, Some pid, calculate_similarity embedding p_emb).
Proof.
  intros Hbefore Hhit; induction before as [|[i e] before IH]; simpl.
  - apply Rgeb_true in Hhit; rewrite Hhit; reflexivity.
  - assert (Hx : In (i, e) ((i, e) :: before)) by (left; reflexivity).
    apply Hbefore, Rgeb_false in Hx; cbn [snd] in Hx; rewrite Hx.
    apply IH; intros q Hq; apply Hbefore; right; exact Hq.
Qed.

(** X22.  When the first processed article that reaches the threshold
    against a new one is [pid], the loader stores the new article as a
    duplicate of [pid], writes one audit record (pid, new id, their
    similarity, 1), leaves the entity and stock-impact tables alone, and
    does not add the article to the processed list. *)
Theorem load_article_records_duplicate (article : Article) (db : database)
  (before : list (Z * ndarray)) (pid : Z) (p_emb : ndarray)
  (after : list (Z * ndarray)) :
  (forall q, In q before ->
     (calculate_similarity (get_embedding (content article)) (snd q)
      < 85 / 100)%R) ->
  (calculate_similarity (get_embedding (content article)) p_emb
   >= 85 / 100)%R ->
  url_taken (url article) (articles db) = false ->
  let st := load_article article (db, before ++ (pid, p_emb) :: after) in
  snd st = before ++ (pid, p_emb) :: after /\
  entities (fst st) = entities db /\
  stock_impacts (fst st) = stock_impacts db /\
  deduplication_records (fst st)
  = deduplication_records db ++
    [ {| d_article_id_1 := pid; d_article_id_2 := next_rowid db;
         d_similarity_score :=
           calculate_similarity (get_embedding (content article)) p_emb;
         d_is_duplicate := true |} ] /\
  exists row,
    articles (fst st) = articles db ++ [row] /\
    a_id row = next_rowid db /\
    a_is_duplicate row = true /\
    a_canonical_id row = Some pid.
Proof.
  intros Hbefore Hhit Hfree st; subst st.
  rewrite (load_article_duplicate article db _ pid _
             (scan_processed_match _ before pid p_emb after Hbefore Hhit)
             Hfree).
  cbn [fst snd articles entities stock_impacts deduplication_records].
  repeat split; eexists; repeat split.
Qed.

Lemma load_article_conflict (article : Article) (u : string)
  (db : database) (processed : list (Z * ndarray)) :
  url article = Some u ->
  In u (stored_urls (articles db)) ->
  load_article article (db, processed) = (db, processed).
Proof.
  intros Hurl Hin; apply url_taken_stored in Hin; rewrite <- Hurl in Hin.
  unfold load_article, load_article_insert.
  destruct (scan_processed _ _) as [[flag canon] score].
  unfold bind, insert_article; rewrite Hin; reflexivity.
Qed.

(** After one turn the article's url is stored, and so is every url that
    was stored before. *)
Lemma load_article_urls (article : Article) (db : database)
  (processed : list (Z * ndarray)) :
  let db' := fst (load_article article (db, processed)) in
  (forall u, In u (stored_urls (articles db)) ->
             In u (stored_urls (articles db'))) /\
  (forall u, url article = Some u -> In u (stored_urls (articles db'))).
Proof.
  assert (Hgoal : forall row db1,
            a_url row = url article ->
            articles db1 = articles db ++ [row] ->
            (forall u, In u (stored_urls (articles db)) ->
                       In u (stored_urls (articles db1))) /\
            (forall u, url article = Some u ->
                       In u (stored_urls (articles db1)))).
  { intros row db1 Hrow ->; rewrite stored_urls_snoc, Hrow; split.
    - intros u Hu; apply in_or_app; left; exact Hu.
    - intros u ->; apply in_or_app; right; left; reflexivity. }
  unfold load_article, load_article_insert.
  destruct (scan_processed _ _) as [[flag canon] score].
  unfold bind, insert_article.
  destruct (url_taken (url article) (articles db)) eqn:Htaken.
  { cbn [fst]; split; [auto|].
    intros u Hu; rewrite Hu in Htaken; apply url_taken_stored, Htaken. }
  destruct flag; [destruct canon as [cid|]|]; cbn [fst snd a_id ret raise
    insert_deduplication_record].
  - eapply Hgoal; [|reflexivity]; reflexivity.
  - eapply Hgoal; [|reflexivity]; reflexivity.
  - match goal with
    | |- context [enrich ?t ?i ?d] =>
        pose proof (enrich_core t i d) as Hcore
    end.
    unfold core in Hcore; injection Hcore as Harticles _ _.
    eapply Hgoal; [|exact Harticles]; reflexivity.
Qed.

Lemma load_run_urls (loaded : list Article)
  (st : database * list (Z * ndarray)) :
  let st' := fold_left (fun s article => load_article article s) loaded st in
  (forall u, In u (stored_urls (articles (fst st))) ->
             In u (stored_urls (articles (fst st')))) /\
  (forall article u, In article loaded -> url article = Some u ->
             In u (stored_urls (articles (fst st')))).
Proof.
  revert st; induction loaded as [|a loaded IH]; intros [db processed];
    cbn [fold_left]; [split; [auto | intros ? ? []]|].
  destruct (load_article_urls a db processed) as [Hkeep Hnew].
  destruct (load_article a (db, processed)) as [db1 processed1] eqn:Hstep.
  cbn [fst] in *.
  destruct (IH (db1, processed1)) as [IHkeep IHnew]; cbn [fst] in *.
  split; [auto|].
  intros article u [<-|Hin] Hu; [apply IHkeep, Hnew, Hu | eauto].
Qed.

Lemma load_run_noop (loaded : list Article) (db : database)
  (processed : list (Z * ndarray)) :
  (forall article, In article loaded ->
     exists u, url article = Some u /\ In u (stored_urls (articles db))) ->
  fold_left (fun s article => load_article article s) loaded (db, processed)
  = (db, processed).
Proof.
  induction loaded as [|a loaded IH]; intros Hall; cbn [fold_left];
    [reflexivity|].
  destruct (Hall a (or_introl eq_refl)) as (u & Hu & Hin).
  rewrite (load_article_conflict a u db processed Hu Hin).
  apply IH; intros article Harticle; apply Hall; right; exact Harticle.
Qed.

(** X23.  Loading the same articles a second time changes nothing, as
    long as each of them has a url: every insert of the second run is
    refused by the UNIQUE column and the loop moves on. *)
Theorem load_mock_data_rerun (MOCK_ARTICLES : list Article) (db : database) :
  (forall article, In article MOCK_ARTICLES -> url article <> None) ->
  load_mock_data MOCK_ARTICLES (load_mock_data MOCK_ARTICLES db)
  = load_mock_data MOCK_ARTICLES db.
Proof.
  intros Hurls; unfold load_mock_data at 1.
  rewrite load_run_noop; [reflexivity|].
  intros article Hin; specialize (Hurls article Hin).
  destruct (url article) as [u|] eqn:Hu; [|contradiction Hurls; reflexivity].
  exists u; split; [reflexivity|].
  unfold load_mock_data.
  exact (proj2 (load_run_urls MOCK_ARTICLES (db, [])) article u Hin Hu).
Qed.

End LoaderMore.

(* ================================================================== *)
(** * The question-answering prompt *)
(* ================================================================== *)

Lemma str_take_idempotent (n : nat) (s : string) :
  str_take n (str_take n s) = str_take n s.
Proof.
  revert s; induction n as [|n IH]; intros [|c s]; simpl; try reflexivity.
  rewrite IH; reflexivity.
Qed.

Section PromptFacts.

Context `{GroqChat}.

(** X24.  [query_with_context] reads at most the first five articles
    and the first 300 characters of each content: the result on any list
    is the result on its first five articles, so articles after the
    fifth do not change it, and cutting every content to 300 characters
    does not change it either, however many articles there are; and when
    the completion call raises, the result is the fixed apology. *)
Theorem query_with_context_window (query : string)
  (context_articles extra : list context_article) :
  query_with_context query context_articles
  = query_with_context query (firstn 5 context_articles) /\
  ((5 <= List.length context_articles)%nat ->
   query_with_context query (context_articles ++ extra)
   = query_with_context query context_articles) /\
  query_with_context query
    (map (fun a => {| ctx_id := ctx_id a; ctx_title := ctx_title a;
                      ctx_content :=
                        Some (str_take 300 (or_empty (ctx_content a))) |})
         context_articles)
  = query_with_context query context_articles /\
  (complete_prompt (query_prompt query context_articles) = None ->
   query_with_context query context_articles
   = Some "Unable to process query at this time."%string).
Proof.
  split; [|split; [|split]].
  - unfold query_with_context, query_prompt, articles_text.
    rewrite firstn_firstn; reflexivity.
  - intros Hlen; unfold query_with_context, query_prompt, articles_text.
    rewrite firstn_app.
    replace (5 - List.length context_articles)%nat with 0%nat by lia.
    cbn [firstn]; rewrite app_nil_r; reflexivity.
  - unfold query_with_context, query_prompt, articles_text.
    rewrite firstn_map, map_map.
    replace (map _ (firstn 5 context_articles))
      with (map article_block (firstn 5 context_articles)); [reflexivity|].
    apply map_ext; intros a; unfold article_block; cbn [ctx_title ctx_content].
    cbn [or_empty]; rewrite str_take_idempotent; reflexivity.
  - intros Hdown; unfold query_with_context; rewrite Hdown; reflexivity.
Qed.

End PromptFacts.

(* ================================================================== *)
(** * The further properties in the concrete world *)
(* ================================================================== *)

Section DemoMore.

#[local] Existing Instance Demo.numpy.
#[local] Existing Instance Demo.pickle.
#[local] Existing Instance Demo.encoder.
#[local] Existing Instance Demo.jsonlib.
#[local] Existing Instance Demo.groq.
#[local] Existing Instance Demo.pyfloat.
#[local] Existing Instance Demo.chat.

Local Notation "'unique'" :=
  (fun r : article_row => negb (a_is_duplicate r)).




Lemma detect_duplicate_articles_monotone_witness :
  (1 / 2 <= 85 / 100)%R /\
  fst (detect_duplicate_articles (Demo.vec_d : ndarray) Demo.vec_a
         (Some (85 / 100)%R)) = true /\
  fst (detect_duplicate_articles (Demo.vec_d : ndarray) Demo.vec_a
         (Some (1 / 2)%R)) = true.
Proof.
  assert (Hle : (1 / 2 <= 85 / 100)%R) by lra.
  assert (Hdup : fst (detect_duplicate_articles (Demo.vec_d : ndarray)
                        Demo.vec_a (Some (85 / 100)%R)) = true)
    by (apply Rgeb_true, similarity_d_a).
  split; [exact Hle|]; split; [exact Hdup|].
  exact (proj1 (@detect_duplicate_articles_monotone Demo.numpy
                  Demo.vec_d Demo.vec_a _ _ Hle Hdup)).
Defined.

Lemma semantic_search_articles_bounded_witness :
  (0 <= 2)%Z /\
  (List.length (Demo.search "repo rate" (search_items Demo.db_abc) 2)
   <= 2)%nat.
Proof.
  assert (Hk : (0 <= 2)%Z) by lia.
  split; [exact Hk|].
  exact (proj1 (semantic_search_articles_bounded "repo rate"
                  (search_items Demo.db_abc) 2 Hk)).
Defined.

Lemma semantic_search_articles_stable_witness :
  (Z.of_nat (List.length (search_items Demo.db_abc)) <= 5)%Z /\
  filter (fun x : search_item * R =>
            if Req_dec_T (snd x) 0 then true else false)
    (Demo.search "repo rate" (search_items Demo.db_abc) 5)
  = filter (fun x : search_item * R =>
            if Req_dec_T (snd x) 0 then true else false)
      (map (fun a => (a, calculate_similarity (get_embedding "repo rate")
                           (deserialize_embedding (item_embedding a))))
           (filter has_embedding (search_items Demo.db_abc))).
Proof.
  assert (Hk : (Z.of_nat (List.length (search_items Demo.db_abc)) <= 5)%Z)
    by (simpl; lia).
  split; [exact Hk|].
  exact (semantic_search_articles_stable "repo rate"
           (search_items Demo.db_abc) 5 0%R Hk).
Defined.

Lemma semantic_search_articles_query_fallback_witness :
  model_encode "repo rate" = None /\
  (0 <= 2)%Z /\
  Demo.search "repo rate" (search_items Demo.db_abc) 2
  = firstn 2 (map (fun a => (a, 0%R))
                (filter has_embedding (search_items Demo.db_abc))).
Proof.
  assert (Hk : (0 <= 2)%Z) by lia.
  split; [reflexivity|]; split; [exact Hk|].
  exact (semantic_search_articles_query_fallback "repo rate"
           (search_items Demo.db_abc) 2 eq_refl Hk).
Defined.

Lemma scan_existing_skips_blank_rows_witness :
  a_embedding Demo.row_blank = None /\
  scan_existing (Demo.vec_d : ndarray)
    ([Demo.row_blank] ++ Demo.row_blank :: [Demo.row_a])
  = scan_existing (Demo.vec_d : ndarray) ([Demo.row_blank] ++ [Demo.row_a]).
Proof.
  split; [reflexivity|].
  exact (@scan_existing_skips_blank_rows Demo.numpy Demo.pickle Demo.vec_d
           [Demo.row_blank] Demo.row_blank [Demo.row_a]
           (or_introl eq_refl)).
Defined.

Lemma add_article_fresh_id_witness :
  Demo.ingest Demo.article_d Demo.db_a
  = (Demo.db_ad, Returned (Demo.reply_of 2 Demo.article_d true (Some 1%Z))) /\
  (forall r, In r (articles Demo.db_a) -> (a_id r < 2)%Z) /\
  (articles_seq Demo.db_a < 2)%Z.
Proof.
  split; [exact run_d_on_a|].
  destruct (add_article_fresh_id Demo.article_d Demo.db_a Demo.db_ad _
              run_d_on_a) as (Hids & Hseq & _).
  split; [exact Hids | exact Hseq].
Defined.

Lemma add_article_canonical_valid_witness :
  Demo.ingest Demo.article_d Demo.db_a
  = (Demo.db_ad, Returned (Demo.reply_of 2 Demo.article_d true (Some 1%Z))) /\
  exists r, In r (articles Demo.db_a) /\ a_id r = 1%Z /\
            a_is_duplicate r = false /\ (1 < 2)%Z.
Proof.
  split; [exact run_d_on_a|].
  destruct (proj2 (add_article_canonical_valid Demo.article_d Demo.db_a
                     Demo.db_ad _ run_d_on_a) 1%Z eq_refl)
    as (r & Hin & Hid & Hunique & Hlt & _).
  exists r; repeat split; assumption.
Defined.

Lemma add_article_owned_rows_witness :
  Demo.ingest Demo.article_d Demo.db_a
  = (Demo.db_ad, Returned (Demo.reply_of 2 Demo.article_d true (Some 1%Z))) /\
  exists es ss,
    entities Demo.db_ad = entities Demo.db_a ++ es /\
    Forall (fun e => e_article_id e = 2%Z) es /\
    stock_impacts Demo.db_ad = stock_impacts Demo.db_a ++ ss /\
    Forall (fun s => s_article_id s = 2%Z) ss.
Proof.
  split; [exact run_d_on_a|].
  exact (add_article_owned_rows Demo.article_d Demo.db_a Demo.db_ad _
           run_d_on_a).
Defined.

Lemma post_all_ids_distinct_witness :
  NoDup (map a_id (articles empty_database)) /\
  NoDup (map a_id (articles
                     (post_all [Demo.article_a; Demo.article_d;
                                Demo.article_a] empty_database))).
Proof.
  assert (Hempty : NoDup (map a_id (articles empty_database)))
    by constructor.
  split; [exact Hempty|].
  exact (post_all_ids_distinct _ empty_database Hempty).
Defined.

Lemma post_all_urls_distinct_witness :
  NoDup (stored_urls (articles empty_database)) /\
  NoDup (stored_urls (articles
                        (post_all [Demo.article_a; Demo.article_d;
                                   Demo.article_a] empty_database))).
Proof.
  assert (Hempty : NoDup (stored_urls (articles empty_database)))
    by constructor.
  split; [exact Hempty|].
  exact (post_all_urls_distinct _ empty_database Hempty).
Defined.

Lemma post_all_canonical_ok_witness :
  canonical_ok (articles empty_database) /\
  canonical_ok (articles
                  (post_all [Demo.article_a; Demo.article_d;
                             Demo.article_a] empty_database)).
Proof.
  assert (Hempty : canonical_ok (articles empty_database))
    by (intros r []).
  split; [exact Hempty|].
  exact (post_all_canonical_ok _ empty_database Hempty).
Defined.

Lemma semantic_search_only_unique_witness :
  (1 <= 5)%Z /\
  (search_results_count (semantic_search "repo rate" 5 Demo.db_ad) <= 5)%Z /\
  forall r,
    In r (search_results (semantic_search "repo rate" 5 Demo.db_ad)) ->
    exists row, In row (articles Demo.db_ad) /\ a_id row = sr_id r /\
                a_title row = sr_title r /\ a_is_duplicate row = false.
Proof.
  assert (Hk : (1 <= 5)%Z) by lia.
  split; [exact Hk|].
  exact (proj2 (semantic_search_only_unique "repo rate" 5 Demo.db_ad Hk)).
Defined.

(** [store_entities_rows] on two companies, one of them a number of 64
    bits, and an empty list of people; an integer of 71 bits is outside
    the hypothesis, and the loop raises on it. *)
Lemma store_entities_rows_witness :
  (forall k v,
     In (k, v) [("companies"%string, JArr [JStr "TCS"; JNum "3"]);
                ("people"%string, JArr [])] ->
     exists ts, v = JArr ts /\
       Forall (fun t => bindable t = true /\ is_null t = false) ts) /\
  entities
    (fst (store_entities 7
            (JObj [("companies"%string, JArr [JStr "TCS"; JNum "3"]);
                   ("people"%string, JArr [])])
            empty_database))
  = [ {| e_article_id := 7; e_entity_text := JStr "TCS";
         e_entity_type := "companies"; e_confidence := JNum "1.0" |};
      {| e_article_id := 7; e_entity_text := JNum "3";
         e_entity_type := "companies"; e_confidence := JNum "1.0" |} ] /\
  bindable (JNum "1180591620717411303424") = false /\
  store_entities 7
    (JObj [("companies"%string, JArr [JNum "1180591620717411303424"])])
    empty_database
  = (empty_database, inl OverflowError).
Proof.
  assert (Hshape : forall k v,
     In (k, v) [("companies"%string, JArr [JStr "TCS"; JNum "3"]);
                ("people"%string, JArr [])] ->
     exists ts, v = JArr ts /\
       Forall (fun t => bindable t = true /\ is_null t = false) ts).
  { intros k v [Heq|[Heq|[]]]; injection Heq as _ <-;
      eexists; (split; [reflexivity|]); repeat constructor. }
  split; [exact Hshape|]; split; [|split; [reflexivity|]].
  - rewrite (store_entities_rows 7 _ empty_database Hshape); reflexivity.
  - exact (store_entities_overflow 7 "companies" "1180591620717411303424"
             1180591620717411303424%Z empty_database eq_refl eq_refl).
Defined.

(** [store_stock_impacts_isolates_failure] with the stock-impact call
    raising for TCS and answering for INFY: the loop goes on after TCS
    and writes the row of INFY's answer. *)
Lemma store_stock_impacts_isolates_failure_witness :
  @complete_stock_impact Demo.groq_tcs_down Demo.text_a (JStr "TCS") = None /\
  @complete_stock_impact Demo.groq_tcs_down Demo.text_a (JStr "INFY")
  = Some Demo.impact_reply /\
  @store_stock_impacts Demo.jsonlib Demo.groq_tcs_down 7 Demo.text_a
    (JObj ([] ++ ("companies"%string,
                  JArr ([] ++ JStr "TCS" :: [JStr "INFY"])) :: []))
    empty_database
  = @store_stock_impacts Demo.jsonlib Demo.groq_tcs_down 7 Demo.text_a
      (JObj ([] ++ ("companies"%string, JArr ([] ++ [JStr "INFY"])) :: []))
      empty_database /\
  @store_stock_impacts Demo.jsonlib Demo.groq_tcs_down 7 Demo.text_a
    (JObj ([] ++ ("companies"%string,
                  JArr ([] ++ JStr "TCS" :: [JStr "INFY"])) :: []))
    empty_database
  = ({| articles := []; articles_seq := 0; entities := [];
        stock_impacts := Demo.impact_rows 7;
        deduplication_records := [] |}, inr tt).
Proof.
  assert (Hsame :
    @store_stock_impacts Demo.jsonlib Demo.groq_tcs_down 7 Demo.text_a
      (JObj ([] ++ ("companies"%string,
                    JArr ([] ++ JStr "TCS" :: [JStr "INFY"])) :: []))
      empty_database
    = @store_stock_impacts Demo.jsonlib Demo.groq_tcs_down 7 Demo.text_a
        (JObj ([] ++ ("companies"%string, JArr ([] ++ [JStr "INFY"])) :: []))
        empty_database).
  { exact (@store_stock_impacts_isolates_failure Demo.jsonlib
             Demo.groq_tcs_down 7 Demo.text_a [] "companies"%string []
             (JStr "TCS") [JStr "INFY"] [] empty_database eq_refl). }
  split; [reflexivity|]; split; [reflexivity|]; split; [exact Hsame|].
  rewrite Hsame; vm_compute; reflexivity.
Defined.

Lemma add_article_all_collaborators_down_witness :
  model_encode (content Demo.article_x) = None /\
  @complete_entities Demo.groq_down (content Demo.article_x) = None /\
  @complete_sentiment Demo.groq_down (content Demo.article_x) = None /\
  url_taken (url Demo.article_x) (articles Demo.db_a) = false /\
  snd (@add_article Demo.numpy Demo.pickle Demo.encoder Demo.jsonlib
         Demo.groq_down Demo.article_x Demo.db_a)
  = Returned
      {| resp_id := 2; resp_title := Demo.text_x;
         resp_is_duplicate := false; resp_canonical_id := None;
         resp_entities := empty_entities;
         resp_sentiment := neutral_sentiment;
         resp_message := "Article added successfully" |}.
Proof.
  split; [reflexivity|]; split; [reflexivity|]; split; [reflexivity|].
  split; [reflexivity|].
  rewrite (@add_article_all_collaborators_down Demo.numpy Demo.pickle
             Demo.encoder Demo.jsonlib Demo.groq_down Demo.article_x
             Demo.db_a eq_refl eq_refl eq_refl eq_refl).
  reflexivity.
Defined.


Lemma load_article_records_duplicate_witness :
  (calculate_similarity (get_embedding (content Demo.article_d))
     (Demo.vec_a : ndarray) >= 85 / 100)%R /\
  url_taken (url Demo.article_d) (articles Demo.db_a) = false /\
  map (fun r => (d_article_id_1 r, d_article_id_2 r, d_is_duplicate r))
    (deduplication_records
       (fst (load_article Demo.article_d
               (Demo.db_a, [] ++ (1%Z, Demo.vec_a : ndarray) :: []))))
  = [(1%Z, 2%Z, true)] /\
  entities (fst (load_article Demo.article_d
                   (Demo.db_a, [] ++ (1%Z, Demo.vec_a : ndarray) :: [])))
  = entities Demo.db_a.
Proof.
  split; [exact similarity_d_a|]; split; [reflexivity|].
  destruct (@load_article_records_duplicate Demo.numpy Demo.pickle
              Demo.encoder Demo.jsonlib Demo.groq Demo.article_d Demo.db_a
              [] 1%Z Demo.vec_a []
              (fun q (Hq : In q []) => match Hq with end)
              similarity_d_a eq_refl)
    as (_ & Hentities & _ & Hrecords & _).
  split; [rewrite Hrecords; reflexivity | exact Hentities].
Defined.

Lemma load_mock_data_rerun_witness :
  (forall article, In article [Demo.article_a; Demo.article_d] ->
                   url article <> None) /\
  Demo.load [Demo.article_a; Demo.article_d]
    (Demo.load [Demo.article_a; Demo.article_d] empty_database)
  = Demo.load [Demo.article_a; Demo.article_d] empty_database.
Proof.
  assert (Hurls : forall article,
            In article [Demo.article_a; Demo.article_d] ->
            url article <> None)
    by (intros article [<-|[<-|[]]]; discriminate).
  split; [exact Hurls|].
  exact (load_mock_data_rerun [Demo.article_a; Demo.article_d]
           empty_database Hurls).
Defined.

(** [query_with_context_window] on five articles followed by a sixth,
    on two articles, and with the completion call raising. *)
Lemma query_with_context_window_witness :
  (5 <= List.length Demo.ctx_five)%nat /\
  query_with_context "What did the RBI do?"
    (Demo.ctx_five ++ [Demo.ctx_of 6 Demo.text_a])
  = query_with_context "What did the RBI do?" Demo.ctx_five /\
  query_with_context "What did the RBI do?"
    (map (fun a => {| ctx_id := ctx_id a; ctx_title := ctx_title a;
                      ctx_content :=
                        Some (str_take 300 (or_empty (ctx_content a))) |})
         [Demo.ctx_of 1 Demo.text_a; Demo.ctx_bare 2])
  = query_with_context "What did the RBI do?"
      [Demo.ctx_of 1 Demo.text_a; Demo.ctx_bare 2] /\
  @complete_prompt Demo.chat_down
    (query_prompt "What did the RBI do?" [Demo.ctx_of 1 Demo.text_a]) = None /\
  @query_with_context Demo.chat_down "What did the RBI do?"
    [Demo.ctx_of 1 Demo.text_a]
  = Some "Unable to process query at this time."%string.
Proof.
  assert (Hlen : (5 <= List.length Demo.ctx_five)%nat) by (simpl; lia).
  split; [exact Hlen|]; split; [|split; [|split; [reflexivity|]]].
  - exact (proj1 (proj2 (@query_with_context_window Demo.chat
                           "What did the RBI do?"
                           Demo.ctx_five [Demo.ctx_of 6 Demo.text_a])) Hlen).
  - exact (proj1 (proj2 (proj2 (@query_with_context_window Demo.chat
                                  "What did the RBI do?"
                                  [Demo.ctx_of 1 Demo.text_a; Demo.ctx_bare 2]
                                  []))) ).
  - exact (proj2 (proj2 (proj2 (@query_with_context_window Demo.chat_down
                                  "What did the RBI do?"
                                  [Demo.ctx_of 1 Demo.text_a] [])))
             eq_refl).
Defined.

End DemoMore.
